(** * Mini Inventory Management System: the store layer of
    [inventory_system.py], embedded and verified.

    The embedding covers the module-level database functions
    ([init_db], [fetch_products], [insert_product], [update_product],
    [delete_product], [check_credentials]) and the aggregate computation of
    [InventoryApp.update_dashboard].  The SQLite file is modelled as a record
    of two tables keyed by their INTEGER PRIMARY KEY; the SQL statements the
    functions execute are modelled by their effect on those tables, and by
    the exception they raise when the engine refuses them.

    Text.  A Python [str] is a sequence of code points; it is carried here
    as a [string] whose characters are the code points U+0000 to U+00FF.
    The engine keeps text as UTF-8, one byte for a code point below 128 and
    two bytes for the others of that range. *)

From Stdlib Require Import ZArith List String Ascii Bool Lia Permutation Sorted.
From Stdlib Require Import Floats.PrimFloat Floats.FloatOps Floats.SpecFloat Floats.FloatAxioms.
From stdpp Require Import base option list gmap strings sorting.

Local Open Scope Z_scope.

(** ** SHA-256 ([hashlib.sha256(...).hexdigest()])

    Words are 32-bit unsigned integers carried in [Z]; every addition is
    reduced modulo [2^32]. *)
Module Sha256.

Definition word_mod : Z := 2 ^ 32.

Definition add32 (a b : Z) : Z := (a + b) mod word_mod.

Definition rotr (n x : Z) : Z :=
  Z.lor (Z.shiftr x n) ((Z.shiftl x (32 - n)) mod word_mod).

Definition not32 (x : Z) : Z := Z.lxor x (word_mod - 1).

Definition ch (x y z : Z) : Z := Z.lxor (Z.land x y) (Z.land (not32 x) z).
Definition maj (x y z : Z) : Z :=
  Z.lxor (Z.lxor (Z.land x y) (Z.land x z)) (Z.land y z).
Definition big_sigma0 (x : Z) : Z :=
  Z.lxor (Z.lxor (rotr 2 x) (rotr 13 x)) (rotr 22 x).
Definition big_sigma1 (x : Z) : Z :=
  Z.lxor (Z.lxor (rotr 6 x) (rotr 11 x)) (rotr 25 x).
Definition small_sigma0 (x : Z) : Z :=
  Z.lxor (Z.lxor (rotr 7 x) (rotr 18 x)) (Z.shiftr x 3).
Definition small_sigma1 (x : Z) : Z :=
  Z.lxor (Z.lxor (rotr 17 x) (rotr 19 x)) (Z.shiftr x 10).

(** The first 64 primes. *)
Definition primes : list Z :=
  [
      2;   3;   5;   7;  11;  13;  17;  19;
     23;  29;  31;  37;  41;  43;  47;  53;
     59;  61;  67;  71;  73;  79;  83;  89;
     97; 101; 103; 107; 109; 113; 127; 131;
    137; 139; 149; 151; 157; 163; 167; 173;
    179; 181; 191; 193; 197; 199; 211; 223;
    227; 229; 233; 239; 241; 251; 257; 263;
    269; 271; 277; 281; 283; 293; 307; 311 ].

(** Round constants: the first 32 bits of the fractional part of the cube
    root of each prime (checked below against [primes]). *)
Definition K : list Z :=
  [
    1116352408; 1899447441; 3049323471; 3921009573;
     961987163; 1508970993; 2453635748; 2870763221;
    3624381080;  310598401;  607225278; 1426881987;
    1925078388; 2162078206; 2614888103; 3248222580;
    3835390401; 4022224774;  264347078;  604807628;
     770255983; 1249150122; 1555081692; 1996064986;
    2554220882; 2821834349; 2952996808; 3210313671;
    3336571891; 3584528711;  113926993;  338241895;
     666307205;  773529912; 1294757372; 1396182291;
    1695183700; 1986661051; 2177026350; 2456956037;
    2730485921; 2820302411; 3259730800; 3345764771;
    3516065817; 3600352804; 4094571909;  275423344;
     430227734;  506948616;  659060556;  883997877;
     958139571; 1322822218; 1537002063; 1747873779;
    1955562222; 2024104815; 2227730452; 2361852424;
    2428436474; 2756734187; 3204031479; 3329325298 ].

(** Initial hash value: the same of the square roots of the first 8
    primes. *)
Definition H0 : list Z :=
  [
    1779033703; 3144134277; 1013904242; 2773480762;
    1359893119; 2600822924;  528734635; 1541459225 ].

(** [k] is the first 32 bits of the fractional part of the [n]-th root of
    [p], for [n] 2 or 3: with [i] the integer part, [i * 2^32 + k] is the
    floor of the root of [p * 2^(32 n)]. *)
Definition frac_root_bits (n : Z) (p k : Z) : bool :=
  let int_part :=
    List.fold_left (fun best i => if i ^ n <=? p then i else best)
                   (List.map Z.of_nat (List.seq 0 20)) 0 in
  let r := int_part * 2 ^ 32 + k in
  (0 <=? k) && (k <? 2 ^ 32)
  && (r ^ n <=? p * 2 ^ (32 * n)) && (p * 2 ^ (32 * n) <? (r + 1) ^ n).

(** The UTF-8 bytes of one code point below 256. *)
Definition utf8 (a : ascii) : list Z :=
  let c := Z.of_N (N_of_ascii a) in
  if c <? 128 then [c] else [192 + Z.shiftr c 6; 128 + Z.land c 63].

(** [password.encode()]: the UTF-8 bytes of the text. *)
Definition encode (s : string) : list Z :=
  List.concat (List.map utf8 (list_ascii_of_string s)).

(** Big-endian bytes of [x], [n] of them. *)
Fixpoint be_bytes (n : nat) (x : Z) : list Z :=
  match n with
  | O => []
  | S n' => (Z.shiftr x (8 * Z.of_nat n')) mod 256 :: be_bytes n' x
  end.

(** Padding: the bit [1], zero bytes up to 56 modulo 64, the bit length on
    eight bytes. *)
Definition pad (msg : list Z) : list Z :=
  let len := Z.of_nat (length msg) in
  let zeros := Z.to_nat ((55 - len) mod 64) in
  msg ++ 0x80 :: List.repeat 0 zeros ++ be_bytes 8 (8 * len).

Fixpoint words_of_bytes (n : nat) (bs : list Z) : list Z :=
  match n with
  | O => []
  | S n' =>
      match bs with
      | b0 :: b1 :: b2 :: b3 :: rest =>
          (Z.shiftl b0 24 + Z.shiftl b1 16 + Z.shiftl b2 8 + b3)
            :: words_of_bytes n' rest
      | _ => []
      end
  end.

Definition nth_word (w : list Z) (i : nat) : Z := List.nth i w 0.

(** The message schedule: 16 words of the block, extended to 64. *)
Fixpoint extend (n : nat) (w : list Z) : list Z :=
  match n with
  | O => w
  | S n' =>
      let t := length w in
      let x :=
        add32 (add32 (small_sigma1 (nth_word w (t - 2))) (nth_word w (t - 7)))
              (add32 (small_sigma0 (nth_word w (t - 15))) (nth_word w (t - 16)))
      in extend n' (w ++ [x])
  end.

Record regs := Regs { ra : Z; rb : Z; rc : Z; rd : Z;
                      re : Z; rf : Z; rg : Z; rh : Z }.

Definition round (s : regs) (kw : Z * Z) : regs :=
  let t1 := add32 (add32 (add32 (rh s) (big_sigma1 (re s)))
                         (add32 (ch (re s) (rf s) (rg s)) (fst kw))) (snd kw) in
  let t2 := add32 (big_sigma0 (ra s)) (maj (ra s) (rb s) (rc s)) in
  Regs (add32 t1 t2) (ra s) (rb s) (rc s) (add32 (rd s) t1) (re s) (rf s) (rg s).

Definition regs_of (h : list Z) : regs :=
  Regs (nth_word h 0) (nth_word h 1) (nth_word h 2) (nth_word h 3)
       (nth_word h 4) (nth_word h 5) (nth_word h 6) (nth_word h 7).

Definition list_of (s : regs) : list Z :=
  [ra s; rb s; rc s; rd s; re s; rf s; rg s; rh s].

Definition compress (h : list Z) (block : list Z) : list Z :=
  let w := extend 48 (words_of_bytes 16 block) in
  let s := List.fold_left round (List.combine K w) (regs_of h) in
  List.map (fun p => add32 (fst p) (snd p)) (List.combine h (list_of s)).

Fixpoint blocks (n : nat) (msg : list Z) (h : list Z) : list Z :=
  match n with
  | O => h
  | S n' => blocks n' (List.skipn 64 msg) (compress h (List.firstn 64 msg))
  end.

Definition digest (msg : list Z) : list Z :=
  let p := pad msg in
  blocks (Nat.div (length p) 64) p H0.

Definition hex_digit (d : Z) : ascii :=
  if d <? 10 then ascii_of_N (Z.to_N (48 + d)) else ascii_of_N (Z.to_N (87 + d)).

Fixpoint hex_word (n : nat) (x : Z) : string :=
  match n with
  | O => EmptyString
  | S n' => String (hex_digit ((Z.shiftr x (4 * Z.of_nat n')) mod 16)) (hex_word n' x)
  end.

(** [hashlib.sha256(b).hexdigest()] *)
Definition hexdigest (msg : list Z) : string :=
  List.fold_right (fun w acc => (hex_word 8 w ++ acc)%string) EmptyString (digest msg).

End Sha256.

(** ** The LIKE operator of the engine

    [X LIKE P]: in the pattern [P] a percent sign matches any sequence of
    zero or more characters, an underscore matches exactly one character,
    and any other character matches itself or its upper/lower case
    equivalent, the case folding being limited to the 26 ASCII letters.
    The engine reads both texts as C strings, so each ends at its first
    NUL character; and it refuses a pattern of more than 50000 bytes. *)
Module Like.

Definition to_lower (c : ascii) : ascii :=
  let n := N_of_ascii c in
  if ((65 <=? n) && (n <=? 90))%N then ascii_of_N (n + 32) else c.

Definition eq_nocase (c d : ascii) : bool :=
  Ascii.eqb (to_lower c) (to_lower d).

Definition is_wildcard (c : ascii) : bool :=
  Ascii.eqb c "%" || Ascii.eqb c "_".

Fixpoint like (pat : string) : string -> bool :=
  match pat with
  | EmptyString =>
      fun s => match s with EmptyString => true | String _ _ => false end
  | String c pat' =>
      if Ascii.eqb c "%" then
        fix skip (s : string) : bool :=
          like pat' s
          || match s with
             | EmptyString => false
             | String _ s' => skip s'
             end
      else
        fun s =>
          match s with
          | EmptyString => false
          | String d s' =>
              (Ascii.eqb c "_" || eq_nocase c d) && like pat' s'
          end
  end.

(** A text as the engine's matcher reads it: up to the first NUL. *)
Fixpoint c_string (s : string) : string :=
  match s with
  | EmptyString => EmptyString
  | String c s' =>
      if Ascii.eqb c "000" then EmptyString else String c (c_string s')
  end.

(** [X LIKE P] on two TEXT values, when the pattern is accepted. *)
Definition like_text (pat s : string) : bool :=
  like (c_string pat) (c_string s).

(** The length of a text in bytes. *)
Fixpoint utf8_length (s : string) : Z :=
  match s with
  | EmptyString => 0
  | String c s' =>
      (if (N_of_ascii c <? 128)%N then 1 else 2) + utf8_length s'
  end.

(** SQLITE_MAX_LIKE_PATTERN_LENGTH *)
Definition max_pattern_length : Z := 50000.

Definition pattern_too_long (pat : string) : bool :=
  max_pattern_length <? utf8_length pat.

Fixpoint lower (s : string) : string :=
  match s with
  | EmptyString => EmptyString
  | String c s' => String (to_lower c) (lower s')
  end.

Fixpoint no_wildcard (s : string) : bool :=
  match s with
  | EmptyString => true
  | String c s' => negb (is_wildcard c) && no_wildcard s'
  end.

Fixpoint no_nul (s : string) : bool :=
  match s with
  | EmptyString => true
  | String c s' => negb (Ascii.eqb c "000") && no_nul s'
  end.

(** Case-sensitive containment, Python's [f in s]. *)
Fixpoint contains (f s : string) : bool :=
  String.prefix f s
  || match s with
     | EmptyString => false
     | String _ s' => contains f s'
     end.

(** [s] has a factor equal to [f] up to the case of ASCII letters. *)
Definition contains_nocase (f s : string) : Prop :=
  exists l m r : string,
    s = (l ++ m ++ r)%string /\ lower m = lower f.

End Like.

(** ** The database file and the store functions *)
Module Inventory.

(** A row of [products] without its key: [name TEXT NOT NULL], and four
    nullable columns. *)
Record product := Product {
  name : string;
  category : option string;
  quantity : option Z;
  price : option float;
  added_on : option string }.

(** A row of [users] without its key. *)
Record user := User {
  username : string;
  password_hash : string }.

(** The file [mini_inventory.db]: each table maps its INTEGER PRIMARY KEY to
    the rest of the row; [products_seq] is the AUTOINCREMENT counter the
    engine keeps for [products] (the largest key it ever handed out). *)
Record database := Database {
  products : gmap Z product;
  products_seq : Z;
  users : gmap Z user }.

(** A fetched tuple [(id, name, category, quantity, price, added_on)]. *)
Definition row : Type := Z * product.

(** What a call does: it returns, or an exception leaves it. *)
Inductive exn :=
  | OperationalError
  | OverflowError.

Inductive outcome (A : Type) :=
  | Returned (a : A)
  | Raised (e : exn).

Arguments Returned {A} a.
Arguments Raised {A} e.

(** The integers the engine stores: signed, 64 bits.  Binding a Python int
    outside of them raises OverflowError. *)
Definition max_int64 : Z := 2 ^ 63 - 1.

Definition fits_int64 (z : Z) : bool :=
  (- 2 ^ 63 <=? z) && (z <=? max_int64).

(** The file before it exists: the CREATE TABLE IF NOT EXISTS statements of
    [init_db] make both tables, empty. *)
Definition empty_db : database := Database ∅ 0 ∅.

Definition default_username : string := "admin".
Definition default_password : string := "admin123".

Definition sha256_hexdigest (password : string) : string :=
  Sha256.hexdigest (Sha256.encode password).

Arguments sha256_hexdigest : simpl never.

(** INSERT OR IGNORE INTO users (id, username, password_hash): the row is
    dropped when key 1 is taken or the UNIQUE username is. *)
Definition init_db (db : database) : database :=
  let hashed := sha256_hexdigest default_password in
  let taken :=
    bool_decide (is_Some (users db !! 1))
    || existsb (fun r : Z * user => String.eqb (username (snd r)) default_username)
               (map_to_list (users db)) in
  if taken then db
  else Database (products db) (products_seq db)
                (<[1 := User default_username hashed]> (users db)).

(** ORDER BY id DESC *)
Definition id_desc (a b : row) : Prop := fst b <= fst a.

Global Instance id_desc_dec : RelDecision id_desc.
Proof. intros a b. unfold id_desc. apply _. Defined.

Global Instance id_desc_total : Total id_desc.
Proof. intros a b. unfold id_desc. lia. Qed.

Global Instance id_desc_trans : Transitive id_desc.
Proof. intros a b c. unfold id_desc. lia. Qed.

Definition order_by_id_desc (rows : list row) : list row :=
  merge_sort id_desc rows.

(** WHERE name LIKE ? OR category LIKE ?  (a NULL category never matches) *)
Definition where_like (pat : string) (r : row) : bool :=
  Like.like_text pat (name (snd r))
  || match category (snd r) with
     | Some c => Like.like_text pat c
     | None => false
     end.

Definition is_empty (s : string) : bool :=
  match s with EmptyString => true | String _ _ => false end.

(** SELECT ... FROM products ORDER BY id DESC *)
Definition select_all (db : database) : list row :=
  order_by_id_desc (map_to_list (products db)).

(** SELECT ... FROM products WHERE name LIKE ? OR category LIKE ?
    ORDER BY id DESC.  The engine evaluates LIKE on the first row it scans
    and raises there when the pattern is too long; on an empty table it
    evaluates nothing. *)
Definition select_like (pat : string) (db : database) : outcome (list row) :=
  match map_to_list (products db) with
  | [] => Returned []
  | r :: rows =>
      if Like.pattern_too_long pat then Raised OperationalError
      else Returned (order_by_id_desc (List.filter (where_like pat) (r :: rows)))
  end.

(** [fetch_products] has no [try]: the exception leaves it. *)
Definition fetch_products (search_text : string) (db : database)
    : outcome (list row) :=
  if negb (is_empty search_text) then
    let like := ("%" ++ search_text ++ "%")%string in
    select_like like db
  else
    Returned (select_all db).

(** The largest key in the table, 0 when it is empty. *)
Definition max_rowid (m : gmap Z product) : Z :=
  map_fold (fun k _ acc => Z.max k acc) 0 m.

(** AUTOINCREMENT: one more than the largest key that ever existed. *)
Definition next_rowid (db : database) : Z :=
  Z.max (products_seq db) (max_rowid (products db)) + 1.

(** A Python float in the REAL column [price], as it is read back: the
    engine stores NaN as NULL, and a zero of either sign as the integer 0,
    read back as 0.0. *)
Definition bind_real (x : float) : option float :=
  if PrimFloat.is_nan x then None
  else if PrimFloat.eqb x 0%float then Some 0%float
  else Some x.

(** INSERT INTO products (name, category, quantity, price, added_on) and
    the commit.  The quantity must fit the engine's integers, and
    AUTOINCREMENT must have an id left: past the largest integer the engine
    reports the database full. *)
Definition execute_insert (name category : string) (quantity : Z) (price : float)
    (now : string) (db : database) : outcome database :=
  if negb (fits_int64 quantity) then Raised OverflowError
  else
    let id := next_rowid db in
    if max_int64 <? id then Raised OperationalError
    else
      let r := Product name (Some category) (Some quantity) (bind_real price)
                 (Some now) in
      Returned (Database (<[id := r]> (products db)) id (users db)).

(** UPDATE products SET name=?, category=?, quantity=?, price=? WHERE id=?
    and the commit.  A statement that matches no row is no error. *)
Definition execute_update (product_id : Z) (name category : string)
    (quantity : Z) (price : float) (db : database) : outcome database :=
  if negb (fits_int64 quantity && fits_int64 product_id) then Raised OverflowError
  else
    let set (r : product) :=
      Product name (Some category) (Some quantity) (bind_real price) (added_on r) in
    Returned (Database (alter set product_id (products db)) (products_seq db)
                (users db)).

(** DELETE FROM products WHERE id=? and the commit. *)
Definition execute_delete (product_id : Z) (db : database) : outcome database :=
  if negb (fits_int64 product_id) then Raised OverflowError
  else
    Returned (Database (delete product_id (products db)) (products_seq db)
                (users db)).

(** [try: ...; return True / except Exception: ...; return False].  The
    result is the flag returned and the file afterwards; nothing was
    committed when the statement raised. *)
Definition try_commit (db : database) (o : outcome database) : bool * database :=
  match o with
  | Returned db' => (true, db')
  | Raised _ => (false, db)
  end.

(** [now] is [datetime.now().strftime(...)]. *)
Definition insert_product (name category : string) (quantity : Z) (price : float)
    (now : string) (db : database) : bool * database :=
  try_commit db (execute_insert name category quantity price now db).

Definition update_product (product_id : Z) (name category : string)
    (quantity : Z) (price : float) (db : database) : bool * database :=
  try_commit db (execute_update product_id name category quantity price db).

Definition delete_product (product_id : Z) (db : database) : bool * database :=
  try_commit db (execute_delete product_id db).

(** SELECT id FROM users WHERE username=? AND password_hash=?; [bool(row)] *)
Definition check_credentials (username0 password : string) (db : database) : bool :=
  let hashed := sha256_hexdigest password in
  existsb (fun r : Z * user =>
             String.eqb (username (snd r)) username0
             && String.eqb (password_hash (snd r)) hashed)
          (map_to_list (users db)).

(** *** The dashboard aggregates of [update_dashboard] *)

(** [int(r[3] or 0)] *)
Definition quantity_or_0 (r : row) : Z :=
  match quantity (snd r) with Some q => q | None => 0 end.

(** [float(r[4] or 0.0)]: NULL and both zeros are falsy. *)
Definition price_or_0 (r : row) : float :=
  match price (snd r) with
  | Some p => if PrimFloat.eqb p 0%float then 0%float else p
  | None => 0%float
  end.

(** Conversion of a Python int to float, rounding to nearest even. *)
Definition float_of_int (z : Z) : float :=
  SF2Prim (binary_normalize prec emax z 0 false).

(** [r[2] or "Uncategorized"] *)
Definition category_label (r : row) : string :=
  match category (snd r) with
  | Some c => if is_empty c then "Uncategorized"%string else c
  | None => "Uncategorized"%string
  end.

(** [Counter]: a dict, so keys stay in first-insertion order. *)
Fixpoint counter_incr (k : string) (c : list (string * nat)) : list (string * nat) :=
  match c with
  | [] => [(k, 1%nat)]
  | (k', n) :: c' =>
      if String.eqb k k' then (k', S n) :: c' else (k', n) :: counter_incr k c'
  end.

Definition Counter (keys : list string) : list (string * nat) :=
  List.fold_left (fun c k => counter_incr k c) keys [].

(** [sorted(items, key=count, reverse=True)]: stable, equal counts keep
    their order. *)
Fixpoint insert_desc (x : string * nat) (l : list (string * nat)) : list (string * nat) :=
  match l with
  | [] => [x]
  | y :: l' =>
      if (snd x <? snd y)%nat then y :: insert_desc x l' else x :: y :: l'
  end.

Definition sort_desc (l : list (string * nat)) : list (string * nat) :=
  List.fold_right insert_desc [] l.

(** [Counter.most_common(n)], that is [heapq.nlargest(n, items, key=count)]. *)
Definition most_common (n : nat) (c : list (string * nat)) : list (string * nat) :=
  List.firstn n (sort_desc c).

Record dashboard := Dashboard {
  total_products : nat;
  total_quantity : Z;
  total_value : float;
  top_counts : list (string * nat) }.

(** What [update_dashboard] computes from the rows fetched. *)
Definition dashboard_of (rows : list row) : dashboard :=
  let total_products := length rows in
  let total_quantity :=
    List.fold_left (fun acc r => acc + quantity_or_0 r) rows 0 in
  let total_value :=
    List.fold_left
      (fun acc r => (acc + float_of_int (quantity_or_0 r) * price_or_0 r)%float)
      rows 0%float in
  let categories := List.map category_label rows in
  let counts := Counter categories in
  let top_counts := most_common 8 counts in
  Dashboard total_products total_quantity total_value top_counts.

Definition update_dashboard (db : database) : outcome dashboard :=
  match fetch_products "" db with
  | Returned rows => Returned (dashboard_of rows)
  | Raised e => Raised e
  end.

(** *** Sequences of store calls *)
Inductive op :=
  | OpInit
  | OpInsert (name category : string) (quantity : Z) (price : float) (now : string)
  | OpUpdate (product_id : Z) (name category : string) (quantity : Z) (price : float)
  | OpDelete (product_id : Z).

Definition apply_op (db : database) (o : op) : database :=
  match o with
  | OpInit => init_db db
  | OpInsert n c q p now => snd (insert_product n c q p now db)
  | OpUpdate i n c q p => snd (update_product i n c q p db)
  | OpDelete i => snd (delete_product i db)
  end.

(** The file after first run followed by the calls [ops]. *)
Definition run (ops : list op) : database :=
  List.fold_left apply_op ops (init_db empty_db).


End Inventory.

(** ** Readings of the specification and sample stores *)

(** The filter of the specification read literally: case-sensitive
    containment in the name or the category. *)
Definition contains_filter (f : string) (r : Inventory.row) : bool :=
  Like.contains f (Inventory.name (snd r))
  || match Inventory.category (snd r) with
     | Some c => Like.contains f c
     | None => false
     end.

(** The store after first run and one insertion. *)
Definition one_widget : Inventory.database :=
  snd (Inventory.insert_product "widget" "tools" 1 1%float "2024-01-01 10:00:00"
         (Inventory.init_db Inventory.empty_db)).



(** The largest quantity the engine stores is [2^63 - 1]. *)
Definition too_large : Z := 2 ^ 63.


(** The sum of [f] over rows. *)
Definition sum_rows (f : Inventory.row -> Z) (rows : list Inventory.row) : Z :=
  List.fold_right (fun r acc => f r + acc) 0 rows.

(** The three insertions of the dashboard scenario, at any three times. *)
Definition scenario (t1 t2 t3 : string) : list Inventory.op :=
  [ Inventory.OpInsert "Widget A" "Tools" 10 2.5%float t1;
    Inventory.OpInsert "Widget B" "Tools" 5 3%float t2;
    Inventory.OpInsert "Gadget" "Electronics" 1 100%float t3 ].

(** Position of the first occurrence of [c] in [l] ([length l] when there
    is none), and the number of its occurrences. *)
Fixpoint index_of (c : string) (l : list string) : nat :=
  match l with
  | [] => O
  | x :: l' => if String.eqb x c then O else S (index_of c l')
  end.

Definition occurrences (c : string) (l : list string) : nat :=
  length (List.filter (String.eqb c) l).

(** Higher count first; among equal counts, the order [T]. *)
Definition by_count_then (T : string * nat -> string * nat -> Prop)
    (x y : string * nat) : Prop :=
  (snd y < snd x)%nat \/ (snd x = snd y /\ T x y).

(** [x] ranks before [y]: a higher count, or the same count and a label
    met earlier in [labels]. *)
Definition ranks_before (labels : list string) : string * nat -> string * nat -> Prop :=
  by_count_then
    (fun x y => (index_of (fst x) labels < index_of (fst y) labels)%nat).

(** The [categories] list of [update_dashboard]. *)
Definition categories_of (db : Inventory.database) : list string :=
  List.map Inventory.category_label (Inventory.select_all db).

(** The number of stored products whose category label is [c]. *)
Definition products_labelled (db : Inventory.database) (c : string) : nat :=
  length
    (List.filter (fun r => String.eqb c (Inventory.category_label r))
       (map_to_list (Inventory.products db))).

(** The count stored for [k] in a counter, 0 when [k] is no key. *)
Fixpoint count_in (c : list (string * nat)) (k : string) : nat :=
  match c with
  | [] => O
  | (k', n) :: c' => if String.eqb k k' then n else count_in c' k
  end.

(** The rows an accepted pattern selects, in the order of the listing. *)
Definition matching (pat : string) (db : Inventory.database) : list Inventory.row :=
  Inventory.order_by_id_desc
    (List.filter (Inventory.where_like pat) (map_to_list (Inventory.products db))).

(** A store whose one product has a NUL in its name. *)
Definition nul_name : Inventory.database :=
  snd (Inventory.insert_product (String "a" (String "000" (String "b" EmptyString)))
         "tools" 1 1%float "2024-01-01 10:00:00"
         (Inventory.init_db Inventory.empty_db)).

(** ** The login dialog and the main window

    The handlers of [LoginDialog] and [InventoryApp], as functions of what
    the widgets hold when the handler runs.  The text and spin-box inputs of
    the product form are parameters of the handlers ([form]): the user can
    set them to any value of their range before pressing a button.  The
    window state keeps what the handlers themselves write besides: the
    selection, the rows of the table and the dashboard; and the search text.
    The table is kept as the rows it was filled from: a cell holds [str] of
    the value, and [table_row_clicked] reads the id cell back with [int],
    which gives the id again.  A handler has no [try] around [load_table],
    so an exception of [fetch_products] leaves the handler; the model
    follows a session up to there. *)
Module App.
Import Inventory.

(** Python's [str.isspace] on the characters of the model. *)
Definition isspace (c : ascii) : bool :=
  let n := N_of_ascii c in
  (((9 <=? n) && (n <=? 13)) || ((28 <=? n) && (n <=? 32))
   || (n =? 133) || (n =? 160))%N.

Fixpoint lstrip (s : string) : string :=
  match s with
  | EmptyString => EmptyString
  | String c s' => if isspace c then lstrip s' else s
  end.

Fixpoint rstrip (s : string) : string :=
  match s with
  | EmptyString => EmptyString
  | String c s' =>
      match rstrip s' with
      | EmptyString => if isspace c then EmptyString else String c EmptyString
      | String d r => String c (String d r)
      end
  end.

(** [str.strip()] *)
Definition strip (s : string) : string := rstrip (lstrip s).

(** *** [LoginDialog.handle_login] *)
Inductive login_result :=
  | LoginValidation
  | LoginFailed
  | LoginAccepted (user : string).

Definition handle_login (username_text password_text : string) (db : database)
    : login_result :=
  let user := strip username_text in
  let pwd := strip password_text in
  if is_empty user || is_empty pwd then LoginValidation
  else if check_credentials user pwd db then LoginAccepted user
  else LoginFailed.



(** *** [InventoryApp] *)
Inductive box := Warning | Information | Critical.

Record message := Message {
  kind : box;
  title : string;
  text : string }.

(** What the four inputs of the product form hold. *)
Record form := Form {
  name_input : string;
  category_input : string;
  quantity_input : Z;
  price_input : float }.

(** [setRange(0, 1000000)] and [setRange(0, 10000000)]: what a spin box can
    hold. *)
Definition in_range (f : form) : Prop :=
  0 <= quantity_input f <= 1000000
  /\ PrimFloat.leb 0%float (price_input f) = true
  /\ PrimFloat.leb (price_input f) 10000000%float = true.

Record window := Window {
  file : database;
  selected_product_id : option Z;
  search_input : string;
  table : list row;
  dashboard_shown : dashboard }.

(** A handler ends with the window as it is then, or an exception leaves
    it, the file being as it is then. *)
Inductive step (A : Type) :=
  | Continues (a : A)
  | Crashes (e : exn) (file_then : database).

Arguments Continues {A} a.
Arguments Crashes {A} e file_then.


(** [not self._selected_product_id]: [None] and 0 are falsy. *)
Definition no_selection (w : window) : bool :=
  match selected_product_id w with
  | None => true
  | Some i => i =? 0
  end.

Definition load_table (w : window) : step window :=
  let s := strip (search_input w) in
  match fetch_products s (file w) with
  | Raised e => Crashes e (file w)
  | Returned rows =>
      match update_dashboard (file w) with
      | Raised e => Crashes e (file w)
      | Returned d => Continues (Window (file w) None (search_input w) rows d)
      end
  end.

(** The part of [clear_form] that is window state. *)
Definition clear_form (w : window) : window :=
  Window (file w) None (search_input w) (table w) (dashboard_shown w).

Definition with_file (db : database) (w : window) : window :=
  Window db (selected_product_id w) (search_input w) (table w) (dashboard_shown w).

(** [InventoryApp()]: no selection and an empty search box; [setup_ui] ends
    with [load_table] and then [update_dashboard] once more. *)
Definition open_window (db : database) : step window :=
  match load_table (Window db None EmptyString [] (dashboard_of [])) with
  | Crashes e db' => Crashes e db'
  | Continues w =>
      match update_dashboard (file w) with
      | Raised e => Crashes e (file w)
      | Returned d =>
          Continues (Window (file w) (selected_product_id w) (search_input w)
                       (table w) d)
      end
  end.

(** [textChanged] of the search box is connected to [load_table]. *)
Definition search_edited (new_text : string) (w : window) : step window :=
  load_table (Window (file w) (selected_product_id w) new_text (table w)
                (dashboard_shown w)).

(** [table_row_clicked]: cell [(row, 0)] holds [str(id)], read back with
    [int]; there is no item when [row] is past the last row. *)
Definition table_row_clicked (row : nat) (w : window) : window :=
  match table w !! row with
  | Some r =>
      Window (file w) (Some (fst r)) (search_input w) (table w) (dashboard_shown w)
  | None => w
  end.

Definition shown (m : message) (s : step window) : step (window * list message) :=
  match s with
  | Continues w => Continues (w, [m])
  | Crashes e db => Crashes e db
  end.

Definition handle_add (f : form) (now : string) (w : window)
    : step (window * list message) :=
  let name := strip (name_input f) in
  if is_empty name then
    Continues (w, [Message Warning "Validation" "Product name required."])
  else
    let category := strip (category_input f) in
    let res := insert_product name category (quantity_input f) (price_input f)
                 now (file w) in
    if fst res then
      shown (Message Information "Added" "Product added.")
        (load_table (clear_form (with_file (snd res) w)))
    else
      Continues (with_file (snd res) w,
                 [Message Critical "Error" "Failed to add product."]).

Definition handle_update (f : form) (w : window) : step (window * list message) :=
  if no_selection w then
    Continues (w, [Message Warning "Select" "Select a product to update."])
  else
    let name := strip (name_input f) in
    if is_empty name then
      Continues (w, [Message Warning "Validation" "Product name required."])
    else
      let category := strip (category_input f) in
      let res := update_product (default 0 (selected_product_id w)) name category
                   (quantity_input f) (price_input f) (file w) in
      if fst res then
        shown (Message Information "Updated" "Product updated.")
          (load_table (clear_form (with_file (snd res) w)))
      else
        Continues (with_file (snd res) w,
                   [Message Critical "Error" "Failed to update product."]).

(** [reply_yes]: the answer to the "Delete selected product?" question. *)
Definition handle_delete (reply_yes : bool) (w : window)
    : step (window * list message) :=
  if no_selection w then
    Continues (w, [Message Warning "Select" "Select a product to delete."])
  else if reply_yes then
    let res := delete_product (default 0 (selected_product_id w)) (file w) in
    if fst res then
      shown (Message Information "Deleted" "Product deleted.")
        (load_table (clear_form (with_file (snd res) w)))
    else
      Continues (with_file (snd res) w,
                 [Message Critical "Error" "Failed to delete product."])
  else Continues (w, []).

(** [export_csv] and [export_excel] up to the DataFrame they write. *)
Inductive export_result :=
  | ExportNoData
  | ExportFrame (columns : list string) (rows : list row).

Definition export_columns : list string :=
  ["ID"; "Name"; "Category"; "Quantity"; "Price"; "Added On"].

Definition export_frame (w : window) : step export_result :=
  match fetch_products (strip (search_input w)) (file w) with
  | Raised e => Crashes e (file w)
  | Returned [] => Continues ExportNoData
  | Returned rows => Continues (ExportFrame export_columns rows)
  end.

(** What the user does in the window. *)
Inductive event :=
  | SearchEdited (new_text : string)
  | RowClicked (row : nat)
  | AddPressed (f : form) (now : string)
  | UpdatePressed (f : form)
  | DeletePressed (reply_yes : bool)
  | ClearPressed.

Definition window_of (s : step (window * list message)) : step window :=
  match s with
  | Continues wm => Continues (fst wm)
  | Crashes e db => Crashes e db
  end.

Definition handle (w : window) (e : event) : step window :=
  match e with
  | SearchEdited t => search_edited t w
  | RowClicked row => Continues (table_row_clicked row w)
  | AddPressed f now => window_of (handle_add f now w)
  | UpdatePressed f => window_of (handle_update f w)
  | DeletePressed reply => window_of (handle_delete reply w)
  | ClearPressed => Continues (clear_form w)
  end.

(** The events one after the other, up to the first exception. *)
Fixpoint handle_all (es : list event) (s : step window) : step window :=
  match es with
  | [] => s
  | e :: es' =>
      match s with
      | Continues w => handle_all es' (handle w e)
      | Crashes x db => Crashes x db
      end
  end.

(** The window opened on the file [db], then the events [es]. *)
Definition session (db : database) (es : list event) : step window :=
  handle_all es (open_window db).

(** The file a step leaves. *)
Definition file_of (s : step window) : database :=
  match s with
  | Continues w => file w
  | Crashes _ db => db
  end.

(** The spin boxes hold values of their range whenever a button is pressed. *)
Definition event_in_range (e : event) : Prop :=
  match e with
  | AddPressed f _ | UpdatePressed f => in_range f
  | _ => True
  end.

End App.

(** What the window keeps true of itself: the table and the dashboard show
    the file as it is, and a selected id is the id of a row of the table. *)
Definition in_sync (w : App.window) : Prop :=
  Inventory.fetch_products (App.strip (App.search_input w)) (App.file w)
  = Inventory.Returned (App.table w)
  /\ Inventory.update_dashboard (App.file w)
     = Inventory.Returned (App.dashboard_shown w)
  /\ forall id : Z,
       App.selected_product_id w = Some id ->
       exists p : Inventory.product, (id, p) ∈ App.table w.

(** A product as the form lets it in: a name that is not empty, name and
    category without surrounding white space, quantity and price within the
    ranges of the spin boxes. *)
Definition tidy_product (p : Inventory.product) : Prop :=
  Inventory.name p <> EmptyString
  /\ App.strip (Inventory.name p) = Inventory.name p
  /\ (exists c, Inventory.category p = Some c /\ App.strip c = c)
  /\ (exists q, Inventory.quantity p = Some q /\ 0 <= q <= 1000000)
  /\ (exists x, Inventory.price p = Some x
                /\ PrimFloat.leb 0%float x = true
                /\ PrimFloat.leb x 10000000%float = true).

Definition tidy (db : Inventory.database) : Prop :=
  forall (id : Z) (p : Inventory.product),
    Inventory.products db !! id = Some p -> tidy_product p.

(** No leading white space. *)
Definition no_lead (s : string) : Prop :=
  match s with
  | EmptyString => True
  | String c _ => App.isspace c = false
  end.

(** Only white space. *)
Fixpoint blank (s : string) : bool :=
  match s with
  | EmptyString => true
  | String c s' => App.isspace c && blank s'
  end.

(** What a session keeps true: the window is in step with the file, or a
    handler has raised the engine's refusal of a statement. *)
Definition in_sync_or_raised (s : App.step App.window) : Prop :=
  match s with
  | App.Continues w => in_sync w
  | App.Crashes e _ => e = Inventory.OperationalError
  end.




(** The product the form holds. *)
Definition product_of_form (f : App.form) (added : option string)
    : Inventory.product :=
  Inventory.Product (App.strip (App.name_input f))
    (Some (App.strip (App.category_input f)))
    (Some (App.quantity_input f))
    (Inventory.bind_real (App.price_input f))
    added.

(** A search text of 25000 characters of two bytes each. *)
Definition long_text : string :=
  string_of_list_ascii (List.repeat "233"%char (Z.to_nat 25000)).


(** ** Test vectors *)

Example K_from_primes :
  length Sha256.K = 64%nat
  /\ List.forallb (fun pk => Sha256.frac_root_bits 3 (fst pk) (snd pk))
       (List.combine Sha256.primes Sha256.K) = true.
Proof. split; vm_compute; reflexivity. Qed.

Example H0_from_primes :
  length Sha256.H0 = 8%nat
  /\ List.forallb (fun pk => Sha256.frac_root_bits 2 (fst pk) (snd pk))
       (List.combine Sha256.primes Sha256.H0) = true.
Proof. split; vm_compute; reflexivity. Qed.

Example sha256_abc :
  Sha256.hexdigest (Sha256.encode "abc")
  = "ba7816bf8f01cfea414140de5dae2223b00361a396177a9cb410ff61f20015ad".
Proof. vm_compute. reflexivity. Qed.

Example sha256_empty :
  Sha256.hexdigest (Sha256.encode "")
  = "e3b0c44298fc1c149afbf4c8996fb92427ae41e4649b934ca495991b7852b855".
Proof. vm_compute. reflexivity. Qed.

Example sha256_two_blocks :
  Sha256.hexdigest
    (Sha256.encode "abcdbcdecdefdefgefghfghighijhijkijkljklmklmnlmnomnopnopq")
  = "248d6a61d20638b8e5c026930c3e6039a33ce45964ff2167f6ecedd419db06c1".
Proof. vm_compute. reflexivity. Qed.

Example sha256_default_password :
  Inventory.sha256_hexdigest Inventory.default_password
  = "240be518fabd2724ddb6f04eeb1da5967448d7e831c08c8fa822809f74c720a9".
Proof. vm_compute. reflexivity. Qed.

Example sha256_two_byte_characters :
  Inventory.sha256_hexdigest
    (String "c" (String "a" (String "f" (String "233" (String "255" EmptyString)))))
  = "753bd7a6db01988a9edeb44d752dd3ec0eb3edb0b69bca3e5c3d6e94701480d9".
Proof. vm_compute. reflexivity. Qed.

Example like_ignores_case : Like.like "%Wid%" "my widget" = true.
Proof. reflexivity. Qed.

Example like_underscore_one : Like.like "%a_c%" "xxabcxx" = true.
Proof. reflexivity. Qed.

Example like_underscore_needs_one : Like.like "%a_c%" "xxacxx" = false.
Proof. reflexivity. Qed.

Example like_no_match : Like.like "%Wid%" "gadget" = false.
Proof. reflexivity. Qed.

Example most_common_ties :
  Inventory.most_common 2 (Inventory.Counter ["b"; "a"; "b"; "c"; "a"; "d"])
  = [("b", 2%nat); ("a", 2%nat)].
Proof. reflexivity. Qed.

Example most_common_keeps_8 :
  Inventory.most_common 8
    (Inventory.Counter ["a"; "b"; "c"; "d"; "e"; "f"; "g"; "h"; "i"; "i"])
  = [("i", 2%nat); ("a", 1%nat); ("b", 1%nat); ("c", 1%nat); ("d", 1%nat);
     ("e", 1%nat); ("f", 1%nat); ("g", 1%nat)].
Proof. reflexivity. Qed.

Example like_stops_at_nul :
  Like.like_text "%b%" (String "a" (String "000" (String "b" EmptyString))) = false.
Proof. reflexivity. Qed.

Example fetch_reads_up_to_nul :
  Inventory.fetch_products "b" nul_name = Inventory.Returned []
  /\ exists r, Inventory.fetch_products "a" nul_name = Inventory.Returned [r].
Proof. split; [|eexists]; vm_compute; reflexivity. Qed.

Example bind_real_negative_zero :
  Inventory.bind_real (-0)%float = Some 0%float
  /\ Inventory.bind_real PrimFloat.nan = None
  /\ Inventory.bind_real 2.5%float = Some 2.5%float.
Proof. repeat split. Qed.

Example insert_too_large :
  Inventory.insert_product "Widget" "Tools" too_large 1%float "2024-01-01 10:00:00"
    (Inventory.init_db Inventory.empty_db)
  = (false, Inventory.init_db Inventory.empty_db).
Proof. vm_compute. reflexivity. Qed.

Example init_db_twice :
  Inventory.init_db (Inventory.init_db Inventory.empty_db)
  = Inventory.init_db Inventory.empty_db.
Proof. vm_compute. reflexivity. Qed.

Import Inventory.

(** ** Facts about LIKE *)
Section LikeFacts.
Import Like.

Lemma app_cons (a : ascii) (s t : string) :
  (String a s ++ t)%string = String a (s ++ t)%string.
Proof. reflexivity. Qed.

Lemma app_nil_l (t : string) : ("" ++ t)%string = t.
Proof. reflexivity. Qed.

Lemma app_nil_r (s : string) : (s ++ "")%string = s.
Proof. induction s as [|a s IH]; [reflexivity|]. now rewrite app_cons, IH. Qed.

Lemma like_percent_unfold (p s : string) :
  like (String "%" p) s
  = like p s || match s with
                | EmptyString => false
                | String _ s' => like (String "%" p) s'
                end.
Proof. destruct s; reflexivity. Qed.

Lemma like_char_unfold (c : ascii) (p s : string) :
  is_wildcard c = false ->
  like (String c p) s
  = match s with
    | EmptyString => false
    | String d s' => eq_nocase c d && like p s'
    end.
Proof.
  unfold is_wildcard. intros Hc.
  apply orb_false_elim in Hc as [H1 H2].
  simpl. rewrite H1. destruct s as [|d s']; [reflexivity|].
  now rewrite H2.
Qed.

Lemma like_percent_intro (p l r : string) :
  like p r = true -> like (String "%" p) (l ++ r) = true.
Proof.
  intros Hr. induction l as [|a l IH].
  - rewrite app_nil_l, like_percent_unfold, Hr. reflexivity.
  - rewrite app_cons, like_percent_unfold, IH. apply orb_true_r.
Qed.

Lemma like_percent_elim (p s : string) :
  like (String "%" p) s = true ->
  exists l r : string, s = (l ++ r)%string /\ like p r = true.
Proof.
  induction s as [|a s IH]; rewrite like_percent_unfold; intros H;
    apply orb_true_iff in H as [H|H].
  - now exists EmptyString, EmptyString.
  - discriminate.
  - now exists EmptyString, (String a s).
  - destruct (IH H) as (l & r & -> & Hr).
    now exists (String a l), r.
Qed.

Lemma like_percent_all (s : string) : like "%" s = true.
Proof.
  rewrite <- (app_nil_r s). now apply like_percent_intro.
Qed.

Lemma eq_nocase_spec (c d : ascii) :
  eq_nocase c d = true <-> to_lower c = to_lower d.
Proof. unfold eq_nocase. apply Ascii.eqb_eq. Qed.

Lemma like_literal_prefix (f : string) :
  no_wildcard f = true ->
  forall s : string,
    like (f ++ "%") s = true <->
    exists m r : string, s = (m ++ r)%string /\ lower m = lower f.
Proof.
  induction f as [|c f IH]; intros Hf s.
  - rewrite app_nil_l. split.
    + intros _. now exists EmptyString, s.
    + intros _. apply like_percent_all.
  - simpl in Hf. apply andb_true_iff in Hf as [Hc Hf].
    apply negb_true_iff in Hc.
    rewrite app_cons, (like_char_unfold _ _ _ Hc).
    destruct s as [|d s].
    + split; [discriminate|].
      intros (m & r & Hs & Hm). destruct m; simpl in Hm; discriminate.
    + rewrite andb_true_iff, eq_nocase_spec, (IH Hf). split.
      * intros (Hcd & m & r & -> & Hm).
        exists (String d m), r. split; [reflexivity|].
        simpl. now rewrite Hcd, Hm.
      * intros (m & r & Hs & Hm). destruct m as [|d' m]; simpl in Hm; [discriminate|].
        rewrite app_cons in Hs. injection Hs as <- ->. injection Hm as Hcd Hm.
        split; [now symmetry|]. now exists m, r.
Qed.

Lemma like_literal_infix (f s : string) :
  no_wildcard f = true ->
  like ("%" ++ f ++ "%") s = true <-> contains_nocase f s.
Proof.
  intros Hf. unfold contains_nocase. rewrite app_cons, app_nil_l. split.
  - intros H. apply like_percent_elim in H as (l & r & -> & Hr).
    apply (like_literal_prefix f Hf) in Hr as (m & r' & -> & Hm).
    now exists l, m, r'.
  - intros (l & m & r & -> & Hm).
    apply like_percent_intro, (like_literal_prefix f Hf). now exists m, r.
Qed.


Lemma c_string_no_nul (s : string) : no_nul s = true -> c_string s = s.
Proof.
  induction s as [|c s IH]; simpl; [reflexivity|]. intros H.
  apply andb_true_iff in H as [Hc Hs]. apply negb_true_iff in Hc.
  now rewrite Hc, IH.
Qed.

Lemma no_nul_app (s t : string) :
  no_nul (s ++ t) = no_nul s && no_nul t.
Proof.
  induction s as [|c s IH]; [reflexivity|].
  rewrite app_cons. simpl. now rewrite IH, andb_assoc.
Qed.

Lemma c_string_pattern (f : string) :
  no_nul f = true -> c_string ("%" ++ f ++ "%") = ("%" ++ f ++ "%")%string.
Proof.
  intros Hf. apply c_string_no_nul. now rewrite !no_nul_app, Hf.
Qed.

Lemma like_text_literal_infix (f s : string) :
  no_wildcard f = true -> no_nul f = true ->
  like_text ("%" ++ f ++ "%") s = true <-> contains_nocase f (c_string s).
Proof.
  intros Hw Hn. unfold like_text. rewrite (c_string_pattern f Hn).
  now apply like_literal_infix.
Qed.


End LikeFacts.

(** ** Facts about [fetch_products] *)

Lemma order_by_id_desc_perm (rows : list row) : order_by_id_desc rows ≡ₚ rows.
Proof. apply merge_sort_Permutation. Qed.

Lemma stored_row (db : database) (r : row) :
  r ∈ map_to_list (products db) <-> products db !! r.1 = Some r.2.
Proof. destruct r as [i p]. apply elem_of_map_to_list. Qed.

Lemma select_all_elem (db : database) (r : row) :
  r ∈ select_all db <-> products db !! r.1 = Some r.2.
Proof. unfold select_all. rewrite order_by_id_desc_perm. apply stored_row. Qed.

Lemma matching_elem (pat : string) (db : database) (r : row) :
  r ∈ matching pat db <->
  products db !! r.1 = Some r.2 /\ where_like pat r = true.
Proof.
  unfold matching.
  now rewrite order_by_id_desc_perm, list_elem_of_In, filter_In,
    <- list_elem_of_In, stored_row.
Qed.

Lemma select_all_NoDup_ids (db : database) : NoDup (fst <$> select_all db).
Proof.
  unfold select_all. rewrite order_by_id_desc_perm. apply NoDup_fst_map_to_list.
Qed.

Lemma matching_NoDup_ids (pat : string) (db : database) :
  NoDup (fst <$> matching pat db).
Proof.
  assert (Hall : NoDup (fst <$> map_to_list (products db)))
    by apply NoDup_fst_map_to_list.
  unfold matching. rewrite order_by_id_desc_perm.
  induction (map_to_list (products db)) as [|r l IH]; [constructor|].
  rewrite fmap_cons in Hall. apply NoDup_cons in Hall as [Hr Hl].
  cbn [List.filter]. destruct (where_like pat r); [|now apply IH].
  rewrite fmap_cons. apply NoDup_cons. split; [|now apply IH].
  intros Hin. apply Hr.
  apply list_elem_of_fmap in Hin as (r' & -> & Hin).
  apply list_elem_of_fmap_2.
  apply list_elem_of_In, filter_In in Hin as [Hin _].
  now apply list_elem_of_In.
Qed.

Lemma select_all_sorted (db : database) : StronglySorted id_desc (select_all db).
Proof. apply StronglySorted_merge_sort; apply _. Qed.

Lemma matching_sorted (pat : string) (db : database) :
  StronglySorted id_desc (matching pat db).
Proof. apply StronglySorted_merge_sort; apply _. Qed.

(** The SELECT with a pattern returns the matching rows, unless the pattern
    is too long and there is a row to try it on. *)
Lemma select_like_cases (pat : string) (db : database) :
  select_like pat db = Returned (matching pat db)
  \/ (select_like pat db = Raised OperationalError
      /\ Like.pattern_too_long pat = true
      /\ products db <> ∅).
Proof.
  unfold select_like, matching.
  destruct (map_to_list (products db)) as [|r rows] eqn:E; [now left|].
  destruct (Like.pattern_too_long pat); [right|now left].
  repeat split. intros Hempty. rewrite Hempty, map_to_list_empty in E. discriminate.
Qed.

Lemma select_like_accepted (pat : string) (db : database) :
  Like.pattern_too_long pat = false ->
  select_like pat db = Returned (matching pat db).
Proof.
  intros H. destruct (select_like_cases pat db) as [Hs|(_ & Hl & _)];
    [assumption|congruence].
Qed.

Lemma fetch_products_no_filter (db : database) :
  fetch_products "" db = Returned (select_all db).
Proof. reflexivity. Qed.

Lemma fetch_products_filter (db : database) (c : ascii) (f : string) :
  fetch_products (String c f) db = select_like ("%" ++ String c f ++ "%") db.
Proof. reflexivity. Qed.

Lemma where_like_literal (f : string) (r : row) :
  Like.no_wildcard f = true -> Like.no_nul f = true ->
  where_like ("%" ++ f ++ "%") r = true <->
  Like.contains_nocase f (Like.c_string (name r.2))
  \/ exists c : string,
       category r.2 = Some c /\ Like.contains_nocase f (Like.c_string c).
Proof.
  intros Hf Hn. unfold where_like.
  rewrite orb_true_iff, (like_text_literal_infix f _ Hf Hn).
  destruct (category r.2) as [c|].
  - rewrite (like_text_literal_infix f c Hf Hn). split; intros [H|H]; auto.
    + right. now exists c.
    + destruct H as (c' & [= <-] & H). now right.
  - split; intros [H|H]; auto; [discriminate|]. now destruct H as (c' & [=] & _).
Qed.


Lemma filter_all {A : Type} (p : A -> bool) (l : list A) :
  (forall x, p x = true) -> List.filter p l = l.
Proof.
  intros Hp. induction l as [|x l IH]; simpl; [reflexivity|].
  now rewrite Hp, IH.
Qed.

Lemma strictly_descending (l : list row) :
  StronglySorted id_desc l -> NoDup (fst <$> l) ->
  StronglySorted (fun i j : Z => j < i) (fst <$> l).
Proof.
  induction 1 as [|r l Hl IH Hr]; intros Hnd; [constructor|].
  rewrite fmap_cons in Hnd |- *.
  apply NoDup_cons in Hnd as [Hnotin Hnd].
  constructor; [now apply IH|].
  apply Forall_forall. intros i Hi.
  apply list_elem_of_fmap in Hi as (r' & -> & Hin).
  rewrite Forall_forall in Hr. specialize (Hr r' Hin). unfold id_desc in Hr.
  assert (r'.1 <> r.1); [|lia].
  intros Heq. apply Hnotin. rewrite <- Heq. now apply list_elem_of_fmap_2.
Qed.


(** C1, as stated, fails: the filter "WID" returns the product named
    "widget", which does not contain "WID" as a case-sensitive substring
    in its name or in its category. *)
Lemma fetch_products_ignores_case :
  fetch_products "WID" one_widget
  = Returned
      [(1, Product "widget" (Some "tools") (Some 1) (Some 1%float)
             (Some "2024-01-01 10:00:00"))]
  /\ contains_filter "WID"
       (1, Product "widget" (Some "tools") (Some 1) (Some 1%float) (Some "2024-01-01 10:00:00"))
     = false.
Proof. split; vm_compute; reflexivity. Qed.

(** C1 (amended): for every store and every filter text without the
    characters percent, underscore and NUL whose pattern the engine accepts
    (at most 50000 bytes with its two percent signs), [fetch_products]
    returns, each once, exactly the stored products whose name or category,
    read up to its first NUL, contains the filter text up to the case of
    ASCII letters; for the empty filter text it returns exactly the stored
    products. *)
Theorem fetch_products_contains_nocase (db : database) (f : string) :
  Like.no_wildcard f = true ->
  Like.no_nul f = true ->
  Like.pattern_too_long ("%" ++ f ++ "%") = false ->
  exists rows : list row,
    fetch_products f db = Returned rows
    /\ NoDup rows
    /\ (forall r : row,
          r ∈ rows <->
          products db !! r.1 = Some r.2
          /\ (Like.contains_nocase f (Like.c_string (name r.2))
              \/ exists c : string,
                   category r.2 = Some c
                   /\ Like.contains_nocase f (Like.c_string c)))
    /\ (f = "" -> forall r : row, r ∈ rows <-> products db !! r.1 = Some r.2).
Proof.
  intros Hf Hn Hlen. destruct f as [|c f].
  - exists (select_all db). split; [reflexivity|]. split; [|split].
    + apply (NoDup_fmap_1 fst), select_all_NoDup_ids.
    + intros r. rewrite select_all_elem. split; [|tauto].
      intros Hs. split; [assumption|]. left.
      now exists "", "", (Like.c_string (name r.2)).
    + intros _ r. apply select_all_elem.
  - exists (matching ("%" ++ String c f ++ "%") db).
    split; [now rewrite fetch_products_filter, select_like_accepted|].
    split; [|split].
    + apply (NoDup_fmap_1 fst), matching_NoDup_ids.
    + intros r. now rewrite matching_elem, (where_like_literal _ r Hf Hn).
    + discriminate.
Qed.

Lemma fetch_products_contains_nocase_witness :
  Like.no_wildcard "Wid" = true
  /\ Like.no_nul "Wid" = true
  /\ Like.pattern_too_long ("%" ++ "Wid" ++ "%") = false
  /\ exists rows : list row,
       fetch_products "Wid" one_widget = Returned rows
       /\ NoDup rows
       /\ (forall r : row,
             r ∈ rows <->
             products one_widget !! r.1 = Some r.2
             /\ (Like.contains_nocase "Wid" (Like.c_string (name r.2))
                 \/ exists c : string,
                      category r.2 = Some c
                      /\ Like.contains_nocase "Wid" (Like.c_string c)))
       /\ ("Wid" = "" ->
           forall r : row, r ∈ rows <-> products one_widget !! r.1 = Some r.2).
Proof.
  split; [reflexivity|]. split; [reflexivity|]. split; [reflexivity|].
  apply (fetch_products_contains_nocase one_widget "Wid"); reflexivity.
Defined.

(** C9: for every store and every filter text, the ids of the sequence
    [fetch_products] returns are in strictly descending order; the one case
    in which it returns nothing is the exception of the engine on a pattern
    that is too long. *)
Theorem fetch_products_newest_first (db : database) (f : string) :
  match fetch_products f db with
  | Returned rows => StronglySorted (fun i j : Z => j < i) (fst <$> rows)
  | Raised _ => Like.pattern_too_long ("%" ++ f ++ "%") = true
  end.
Proof.
  destruct f as [|c f].
  - rewrite fetch_products_no_filter. apply strictly_descending.
    + apply select_all_sorted.
    + apply select_all_NoDup_ids.
  - rewrite fetch_products_filter.
    destruct (select_like_cases ("%" ++ String c f ++ "%") db)
      as [->|(-> & Hl & _)]; [|assumption].
    apply strictly_descending.
    + apply matching_sorted.
    + apply matching_NoDup_ids.
Qed.


(** ** The mutating functions *)

Lemma max_rowid_bound (m : gmap Z product) (k : Z) (v : product) :
  m !! k = Some v -> k <= max_rowid m.
Proof.
  unfold max_rowid. revert k v.
  apply (map_fold_weak_ind
           (fun (r : Z) (m : gmap Z product) =>
              forall k v, m !! k = Some v -> k <= r)).
  - intros k v. now rewrite lookup_empty.
  - intros i x m' r Hi IH k v. rewrite lookup_insert.
    destruct (decide (i = k)) as [->|Hne]; intros H; [lia|].
    specialize (IH k v H). lia.
Qed.

Lemma next_rowid_above (db : database) (k : Z) (v : product) :
  products db !! k = Some v -> k < next_rowid db.
Proof. intros H. apply max_rowid_bound in H. unfold next_rowid. lia. Qed.

Lemma next_rowid_fresh (db : database) : products db !! next_rowid db = None.
Proof.
  destruct (products db !! next_rowid db) as [v|] eqn:E; [|reflexivity].
  apply next_rowid_above in E. lia.
Qed.

Lemma next_rowid_seq (db : database) : products_seq db < next_rowid db.
Proof. unfold next_rowid. lia. Qed.



Lemma insert_product_done (db : database) (n c : string) (q : Z) (p : float)
    (now : string) :
  fits_int64 q && (next_rowid db <=? max_int64) = true ->
  insert_product n c q p now db
  = (true,
     Database (<[next_rowid db :=
                   Product n (Some c) (Some q) (bind_real p) (Some now)]>
                 (products db))
       (next_rowid db) (users db)).
Proof.
  intros H. apply andb_true_iff in H as [Hq Hid]. apply Z.leb_le in Hid.
  unfold insert_product, execute_insert. rewrite Hq. simpl.
  destruct (Z.ltb_spec max_int64 (next_rowid db)); [lia|reflexivity].
Qed.

Lemma insert_product_refused (db : database) (n c : string) (q : Z) (p : float)
    (now : string) :
  fits_int64 q && (next_rowid db <=? max_int64) = false ->
  insert_product n c q p now db = (false, db).
Proof.
  intros H. unfold insert_product, execute_insert.
  destruct (fits_int64 q); simpl in *; [|reflexivity].
  apply Z.leb_gt in H.
  destruct (Z.ltb_spec max_int64 (next_rowid db)); [reflexivity|lia].
Qed.

Lemma update_product_done (db : database) (id : Z) (n c : string) (q : Z)
    (p : float) :
  fits_int64 q && fits_int64 id = true ->
  update_product id n c q p db
  = (true,
     Database
       (alter (fun r => Product n (Some c) (Some q) (bind_real p) (added_on r))
          id (products db))
       (products_seq db) (users db)).
Proof.
  intros H. unfold update_product, execute_update. now rewrite H.
Qed.

Lemma update_product_refused (db : database) (id : Z) (n c : string) (q : Z)
    (p : float) :
  fits_int64 q && fits_int64 id = false ->
  update_product id n c q p db = (false, db).
Proof.
  intros H. unfold update_product, execute_update. now rewrite H.
Qed.

Lemma delete_product_done (db : database) (id : Z) :
  fits_int64 id = true ->
  delete_product id db
  = (true, Database (delete id (products db)) (products_seq db) (users db)).
Proof.
  intros H. unfold delete_product, execute_delete. now rewrite H.
Qed.

Lemma delete_product_refused (db : database) (id : Z) :
  fits_int64 id = false -> delete_product id db = (false, db).
Proof.
  intros H. unfold delete_product, execute_delete. now rewrite H.
Qed.

Lemma first_of_sorted (l : list row) (x : row) :
  StronglySorted id_desc l -> x ∈ l ->
  (forall y, y ∈ l -> y.1 <= x.1) ->
  NoDup (fst <$> l) ->
  head l = Some x.
Proof.
  intros Hs Hx Hmax Hnd. destruct l as [|y l]; [now apply elem_of_nil in Hx|].
  simpl. f_equal.
  apply elem_of_cons in Hx as [->|Hx]; [reflexivity|].
  exfalso.
  apply StronglySorted_inv in Hs as [_ Hy]. rewrite Forall_forall in Hy.
  specialize (Hy x Hx). unfold id_desc in Hy.
  specialize (Hmax y (list_elem_of_here _ _)).
  simpl in Hnd. apply NoDup_cons in Hnd as [Hnotin _]. apply Hnotin.
  replace y.1 with x.1 by lia. now apply list_elem_of_fmap_2.
Qed.

(** C5, as stated, fails: [insert_product] returns the flag [true], the
    same value for two calls that create two different records, so the
    value returned is not the record created (and is not a failure). *)
Lemma insert_product_returns_flag :
  fst (insert_product "Widget A" "Tools" 10 2.5%float "2024-01-01 10:00:00" (init_db empty_db))
  = true
  /\ fst (insert_product "Gadget" "Electronics" 1 100%float "2024-01-01 10:00:00" (init_db empty_db))
     = true
  /\ name <$> (products (snd (insert_product "Widget A" "Tools" 10 2.5%float
                                "2024-01-01 10:00:00" (init_db empty_db))) !! 1)
     = Some "Widget A"
  /\ name <$> (products (snd (insert_product "Gadget" "Electronics" 1 100%float
                                "2024-01-01 10:00:00" (init_db empty_db))) !! 1)
     = Some "Gadget".
Proof. repeat split; vm_compute; reflexivity. Qed.

(** C5 (amended): [insert_product] returns a flag, not the record.  When
    the quantity fits the engine's 64-bit integers and an id is left, the
    flag is [true]: the id assigned at insertion time is fresh (absent from
    the store, above the counter of the ids handed out before and above
    every stored id), the counter advances to it, the record stored under it
    carries the given fields and the insertion time as [added_on], every
    other product and the credentials are unchanged, and the new record is
    the first entry of the unfiltered listing.  Otherwise the insertion
    fails: the flag is [false] and the store is unchanged. *)
Theorem insert_product_assigns (db : database) (n c : string) (q : Z) (p : float)
    (now : string) :
  if fits_int64 q && (next_rowid db <=? max_int64) then
    fst (insert_product n c q p now db) = true
    /\ products db !! next_rowid db = None
    /\ products_seq db < next_rowid db
    /\ (forall k v, products db !! k = Some v -> k < next_rowid db)
    /\ products (snd (insert_product n c q p now db)) !! next_rowid db
       = Some (Product n (Some c) (Some q) (bind_real p) (Some now))
    /\ products_seq (snd (insert_product n c q p now db)) = next_rowid db
    /\ (forall j, j <> next_rowid db ->
          products (snd (insert_product n c q p now db)) !! j = products db !! j)
    /\ users (snd (insert_product n c q p now db)) = users db
    /\ exists rows : list row,
         fetch_products "" (snd (insert_product n c q p now db)) = Returned rows
         /\ head rows
            = Some (next_rowid db,
                    Product n (Some c) (Some q) (bind_real p) (Some now))
  else
    insert_product n c q p now db = (false, db).
Proof.
  destruct (fits_int64 q && (next_rowid db <=? max_int64)) eqn:E;
    [|now apply insert_product_refused].
  rewrite (insert_product_done db n c q p now E). cbn [fst snd products products_seq users].
  split; [reflexivity|]. split; [apply next_rowid_fresh|].
  split; [apply next_rowid_seq|]. split; [apply next_rowid_above|].
  split; [apply lookup_insert_eq|]. split; [reflexivity|].
  split; [intros j Hj; now apply lookup_insert_ne|]. split; [reflexivity|].
  eexists. split; [apply fetch_products_no_filter|].
  apply first_of_sorted.
  - apply select_all_sorted.
  - apply select_all_elem. simpl. apply lookup_insert_eq.
  - intros [k v] Hy. apply select_all_elem in Hy. simpl in Hy.
    rewrite lookup_insert in Hy. destruct (decide (next_rowid db = k)) as [->|Hne].
    + simpl. lia.
    + apply next_rowid_above in Hy. simpl. lia.
  - apply select_all_NoDup_ids.
Qed.

(** C6, as stated, fails: the product of id 1 is stored, and an update of
    it with the quantity 2^63, which the engine cannot store, reports
    failure and leaves the store as it was. *)
Lemma update_product_too_large :
  products one_widget !! 1
  = Some (Product "widget" (Some "tools") (Some 1) (Some 1%float)
            (Some "2024-01-01 10:00:00"))
  /\ update_product 1 "Widget" "Tools" too_large 2.5%float one_widget
     = (false, one_widget).
Proof. split; vm_compute; reflexivity. Qed.

(** C6 (amended): for every id present in the store, [update_product] with
    an id and a quantity that fit the engine's 64-bit integers reports
    [true] and replaces the name, category, quantity and price of that
    product by the given values (the price as the engine keeps it: NaN as
    NULL, a zero of either sign as 0.0) and keeps its [added_on]; every
    other product, the id counter and the credentials are unchanged.  With
    an id or a quantity that does not fit, it reports [false] and changes
    nothing. *)
Theorem update_product_frame (db : database) (id : Z) (n c : string) (q : Z)
    (p : float) (r : product) :
  products db !! id = Some r ->
  if fits_int64 q && fits_int64 id then
    fst (update_product id n c q p db) = true
    /\ products (snd (update_product id n c q p db)) !! id
       = Some (Product n (Some c) (Some q) (bind_real p) (added_on r))
    /\ (forall j, j <> id ->
          products (snd (update_product id n c q p db)) !! j = products db !! j)
    /\ products_seq (snd (update_product id n c q p db)) = products_seq db
    /\ users (snd (update_product id n c q p db)) = users db
  else
    update_product id n c q p db = (false, db).
Proof.
  intros Hr. destruct (fits_int64 q && fits_int64 id) eqn:E;
    [|now apply update_product_refused].
  rewrite (update_product_done db id n c q p E). cbn [fst snd products products_seq users].
  split; [reflexivity|]. split; [|split; [|split; reflexivity]].
  - now rewrite lookup_alter_eq, Hr.
  - intros j Hj. now apply lookup_alter_ne.
Qed.

Lemma update_product_frame_witness :
  products one_widget !! 1
  = Some (Product "widget" (Some "tools") (Some 1) (Some 1%float) (Some "2024-01-01 10:00:00"))
  /\ products (snd (update_product 1 "Widget" "Tools" 7 2.5%float one_widget)) !! 1
     = Some (Product "Widget" (Some "Tools") (Some 7) (bind_real 2.5%float)
               (Some "2024-01-01 10:00:00")).
Proof.
  split; [vm_compute; reflexivity|].
  exact (proj1 (proj2
    (update_product_frame one_widget 1 "Widget" "Tools" 7 2.5%float
       (Product "widget" (Some "tools") (Some 1) (Some 1%float)
          (Some "2024-01-01 10:00:00"))
       eq_refl))).
Defined.

(** C2, as stated, fails: on an id that is absent from the store both
    [update_product] and [delete_product] report [true], not [false]. *)
Lemma update_delete_absent_report_true :
  products (init_db empty_db) !! 7 = None
  /\ fst (update_product 7 "Widget" "Tools" 1 1%float (init_db empty_db)) <> false
  /\ fst (delete_product 7 (init_db empty_db)) <> false.
Proof. repeat split; vm_compute; congruence. Qed.

(** C2 (amended): for every id that is absent from the store,
    [update_product] and [delete_product] raise nothing and leave the store
    unchanged.  What they report does not depend on the store: [true] when
    the id (and, for an update, the quantity) fits the engine's 64-bit
    integers, [false] when it does not; so the report is the same whether
    the id is stored or not, and tells nothing about it. *)
Theorem update_delete_absent (db : database) (id : Z) (n c : string) (q : Z)
    (p : float) :
  products db !! id = None ->
  snd (update_product id n c q p db) = db
  /\ snd (delete_product id db) = db
  /\ (forall db' : database,
        fst (update_product id n c q p db') = fits_int64 q && fits_int64 id
        /\ fst (delete_product id db') = fits_int64 id).
Proof.
  intros Hid. split; [|split].
  - destruct (fits_int64 q && fits_int64 id) eqn:E.
    + rewrite (update_product_done db id n c q p E). destruct db as [ps seq us].
      simpl in *. now rewrite (alter_id' _ _ _ Hid).
    + now rewrite (update_product_refused db id n c q p E).
  - destruct (fits_int64 id) eqn:E.
    + rewrite (delete_product_done db id E). destruct db as [ps seq us].
      simpl in *. now rewrite (delete_id _ _ Hid).
    + now rewrite (delete_product_refused db id E).
  - intros db'. split.
    + destruct (fits_int64 q && fits_int64 id) eqn:E.
      * now rewrite (update_product_done db' id n c q p E).
      * now rewrite (update_product_refused db' id n c q p E).
    + destruct (fits_int64 id) eqn:E.
      * now rewrite (delete_product_done db' id E).
      * now rewrite (delete_product_refused db' id E).
Qed.

Lemma update_delete_absent_witness :
  products (init_db empty_db) !! 7 = None
  /\ snd (update_product 7 "Widget" "Tools" 1 1%float (init_db empty_db))
     = init_db empty_db
  /\ snd (delete_product 7 (init_db empty_db)) = init_db empty_db.
Proof.
  split; [reflexivity|].
  destruct (update_delete_absent (init_db empty_db) 7 "Widget" "Tools" 1 1%float
              eq_refl) as (Hu & Hd & _).
  split; [exact Hu|exact Hd].
Defined.

(** ** Credentials *)

(** C8: [check_credentials] hashes the password and answers [true] exactly
    when some stored credential has that username and that digest; after
    first run, "admin"/"admin123" is accepted and "admin"/"wrong" is not. *)
Theorem check_credentials_spec :
  (forall (db : database) (u p : string),
     check_credentials u p db = true <->
     exists (id : Z) (rec : user),
       users db !! id = Some rec
       /\ username rec = u
       /\ password_hash rec = sha256_hexdigest p)
  /\ check_credentials "admin" "admin123" (init_db empty_db) = true
  /\ check_credentials "admin" "wrong" (init_db empty_db) = false.
Proof.
  split; [|split; vm_compute; reflexivity].
  intros db u p. unfold check_credentials. rewrite existsb_exists. split.
  - intros ([id rec] & Hin & H). apply andb_true_iff in H as [Hu Hp].
    apply String.eqb_eq in Hu, Hp. simpl in Hu, Hp.
    exists id, rec. repeat split; try assumption.
    now apply elem_of_map_to_list, list_elem_of_In.
  - intros (id & rec & Hin & Hu & Hp). exists (id, rec). split.
    + now apply list_elem_of_In, elem_of_map_to_list.
    + simpl. apply andb_true_iff. split; now apply String.eqb_eq.
Qed.

(** ** Invariants of the reachable stores *)

Lemma init_db_products (db : database) :
  products (init_db db) = products db /\ products_seq (init_db db) = products_seq db.
Proof. unfold init_db. now destruct (_ || _). Qed.

Lemma SFeqb_refl (x : spec_float) : x <> S754_nan -> SFeqb x x = true.
Proof.
  intros Hx. destruct x as [s| s | | s m e]; try reflexivity.
  - now destruct s.
  - congruence.
  - unfold SFeqb, SFcompare.
    destruct s; rewrite Z.compare_refl, Pos.compare_cont_refl; reflexivity.
Qed.

Lemma nonneg_not_nan (p : float) :
  PrimFloat.leb 0%float p = true -> PrimFloat.is_nan p = false.
Proof.
  unfold PrimFloat.is_nan. intros H.
  rewrite FloatAxioms.leb_spec in H. rewrite FloatAxioms.eqb_spec, SFeqb_refl; [reflexivity|].
  intros Hn. rewrite Hn in H. revert H. vm_compute. congruence.
Qed.


(** What a call leaves: the file as it was, when the statement raised, or
    the file the statement made. *)
Lemma insert_product_file (db : database) (n c : string) (q : Z) (p : float)
    (now : string) :
  snd (insert_product n c q p now db) = db
  \/ snd (insert_product n c q p now db)
     = Database (<[next_rowid db :=
                     Product n (Some c) (Some q) (bind_real p) (Some now)]>
                   (products db))
         (next_rowid db) (users db).
Proof.
  destruct (fits_int64 q && (next_rowid db <=? max_int64)) eqn:E.
  - right. now rewrite (insert_product_done db n c q p now E).
  - left. now rewrite (insert_product_refused db n c q p now E).
Qed.

Lemma update_product_file (db : database) (id : Z) (n c : string) (q : Z)
    (p : float) :
  snd (update_product id n c q p db) = db
  \/ snd (update_product id n c q p db)
     = Database
         (alter (fun r => Product n (Some c) (Some q) (bind_real p) (added_on r))
            id (products db))
         (products_seq db) (users db).
Proof.
  destruct (fits_int64 q && fits_int64 id) eqn:E.
  - right. now rewrite (update_product_done db id n c q p E).
  - left. now rewrite (update_product_refused db id n c q p E).
Qed.

Lemma delete_product_file (db : database) (id : Z) :
  snd (delete_product id db) = db
  \/ snd (delete_product id db)
     = Database (delete id (products db)) (products_seq db) (users db).
Proof.
  destruct (fits_int64 id) eqn:E.
  - right. now rewrite (delete_product_done db id E).
  - left. now rewrite (delete_product_refused db id E).
Qed.

Ltac op_file :=
  cbn [apply_op];
  match goal with
  | |- context [init_db ?db] =>
      let H1 := fresh in
      let H2 := fresh in
      destruct (init_db_products db) as [H1 H2]; rewrite ?H1, ?H2; clear H1 H2
  | |- context [insert_product ?n ?c ?q ?p ?now ?db] =>
      destruct (insert_product_file db n c q p now) as [-> | ->]
  | |- context [update_product ?id ?n ?c ?q ?p ?db] =>
      destruct (update_product_file db id n c q p) as [-> | ->]
  | |- context [delete_product ?id ?db] =>
      destruct (delete_product_file db id) as [-> | ->]
  end;
  cbn [products products_seq users].



















(** ** The dashboard totals *)

Lemma fold_left_sum (f : row -> Z) (rows : list row) (a : Z) :
  fold_left (fun acc r => acc + f r) rows a = a + sum_rows f rows.
Proof.
  revert a. induction rows as [|r rows IH]; intros a; simpl; [lia|].
  rewrite IH. lia.
Qed.

Lemma sum_rows_perm (f : row -> Z) (l1 l2 : list row) :
  l1 ≡ₚ l2 -> sum_rows f l1 = sum_rows f l2.
Proof. induction 1; simpl; lia. Qed.

Lemma select_all_empty (db : database) : products db = ∅ -> select_all db = [].
Proof. intros H. unfold select_all. rewrite H, map_to_list_empty. reflexivity. Qed.

Lemma update_dashboard_returns (db : database) :
  update_dashboard db = Returned (dashboard_of (select_all db)).
Proof. reflexivity. Qed.

(** C3: for every store, [update_dashboard] yields as total_products the
    number of stored rows (no filter applies), as total_quantity the sum of
    the quantities of the stored rows, a NULL quantity counting 0, and as
    total_value the sum, in listing order, of quantity times price over all
    rows; on an empty store the three are 0; and after the three insertions
    of the scenario into the store of first run they are 3, 16 and 140.0
    (with Tools: 2, Electronics: 1 as the category counts). *)
Theorem update_dashboard_totals :
  (forall db : database,
     exists (d : dashboard) (rows : list row),
       update_dashboard db = Returned d
       /\ fetch_products "" db = Returned rows
       /\ total_products d = size (products db)
       /\ total_quantity d = sum_rows quantity_or_0 (map_to_list (products db))
       /\ total_value d
          = fold_left
              (fun acc r => (acc + float_of_int (quantity_or_0 r) * price_or_0 r)%float)
              rows 0%float
       /\ (forall r : row, quantity r.2 = None -> quantity_or_0 r = 0)
       /\ (forall r : row, r ∈ rows <-> products db !! r.1 = Some r.2))
  /\ (forall db : database,
        products db = ∅ ->
        exists d : dashboard,
          update_dashboard db = Returned d
          /\ total_products d = 0%nat
          /\ total_quantity d = 0
          /\ total_value d = 0%float)
  /\ (forall t1 t2 t3 : string,
        update_dashboard (run (scenario t1 t2 t3))
        = Returned
            (Dashboard 3 16 140%float [("Tools", 2%nat); ("Electronics", 1%nat)])).
Proof.
  split; [|split].
  - intros db. exists (dashboard_of (select_all db)), (select_all db).
    split; [apply update_dashboard_returns|]. split; [reflexivity|].
    unfold dashboard_of. cbn [total_products total_quantity total_value].
    split; [|split; [|split; [|split]]].
    + rewrite <- length_map_to_list. apply Permutation_length.
      apply order_by_id_desc_perm.
    + rewrite fold_left_sum, Z.add_0_l. apply sum_rows_perm.
      apply order_by_id_desc_perm.
    + reflexivity.
    + intros r Hq. unfold quantity_or_0. now rewrite Hq.
    + intros r. apply select_all_elem.
  - intros db Hdb. exists (dashboard_of (select_all db)).
    split; [apply update_dashboard_returns|].
    now rewrite (select_all_empty db Hdb).
  - intros t1 t2 t3. vm_compute. reflexivity.
Qed.

(** ** The category counts *)

Lemma counter_incr_in (k : string) (c : list (string * nat)) :
  k ∈ fst <$> c -> fst <$> counter_incr k c = fst <$> c.
Proof.
  induction c as [|[k' n] c IH]; intros Hin; simpl.
  - now apply elem_of_nil in Hin.
  - destruct (String.eqb_spec k k') as [->|Hne]; [reflexivity|].
    simpl. f_equal. apply IH.
    simpl in Hin. apply elem_of_cons in Hin as [Hin|Hin]; [contradiction|assumption].
Qed.

Lemma counter_incr_notin (k : string) (c : list (string * nat)) :
  k ∉ fst <$> c -> counter_incr k c = c ++ [(k, 1%nat)].
Proof.
  induction c as [|[k' n] c IH]; intros Hin; simpl; [reflexivity|].
  simpl in Hin. apply not_elem_of_cons in Hin as [Hne Hin].
  destruct (String.eqb_spec k k') as [->|_]; [contradiction|].
  now rewrite IH.
Qed.

Lemma count_in_incr (k k' : string) (c : list (string * nat)) :
  count_in (counter_incr k c) k'
  = if String.eqb k' k then S (count_in c k') else count_in c k'.
Proof.
  induction c as [|[k0 n] c IH]; simpl.
  - now destruct (String.eqb k' k).
  - destruct (String.eqb_spec k k0) as [->|Hne]; simpl.
    + now destruct (String.eqb k' k0).
    + rewrite IH. destruct (String.eqb_spec k' k0) as [->|_]; [|reflexivity].
      destruct (String.eqb_spec k0 k) as [->|_]; [contradiction|reflexivity].
Qed.

Lemma count_in_notin (k : string) (c : list (string * nat)) :
  k ∉ fst <$> c -> count_in c k = O.
Proof.
  induction c as [|[k' n] c IH]; intros Hin; simpl; [reflexivity|].
  simpl in Hin. apply not_elem_of_cons in Hin as [Hne Hin].
  destruct (String.eqb_spec k k') as [->|_]; [contradiction|]. now apply IH.
Qed.

Lemma count_in_elem (k : string) (n : nat) (c : list (string * nat)) :
  NoDup (fst <$> c) -> (k, n) ∈ c -> count_in c k = n.
Proof.
  induction c as [|[k' n'] c IH]; intros Hnd Hin.
  - now apply elem_of_nil in Hin.
  - simpl in Hnd. apply NoDup_cons in Hnd as [Hk' Hnd]. simpl.
    apply elem_of_cons in Hin as [[= <- <-]|Hin].
    + now rewrite String.eqb_refl.
    + destruct (String.eqb_spec k k') as [->|_]; [|now apply IH].
      exfalso. apply Hk'. now apply (list_elem_of_fmap_2 fst) in Hin.
Qed.

Lemma Counter_snoc (l : list string) (k : string) :
  Counter (l ++ [k]) = counter_incr k (Counter l).
Proof. unfold Counter. now rewrite fold_left_app. Qed.

Lemma occurrences_snoc (c k : string) (l : list string) :
  occurrences c (l ++ [k])
  = if String.eqb c k then S (occurrences c l) else occurrences c l.
Proof.
  unfold occurrences. rewrite List.filter_app, length_app. simpl.
  destruct (String.eqb c k); simpl; lia.
Qed.

Lemma Counter_count (l : list string) (k : string) :
  count_in (Counter l) k = occurrences k l.
Proof.
  induction l as [|k' l IH] using rev_ind; [reflexivity|].
  now rewrite Counter_snoc, count_in_incr, occurrences_snoc, IH.
Qed.

Lemma Counter_keys (l : list string) (k : string) :
  k ∈ fst <$> Counter l <-> k ∈ l.
Proof.
  induction l as [|k' l IH] using rev_ind.
  - simpl. now rewrite !elem_of_nil.
  - rewrite Counter_snoc, elem_of_app, list_elem_of_singleton, <- IH.
    destruct (decide (k' ∈ fst <$> Counter l)) as [Hin|Hnotin].
    + rewrite (counter_incr_in _ _ Hin). split; [tauto|]. intros [H| ->]; assumption.
    + rewrite (counter_incr_notin _ _ Hnotin), fmap_app, elem_of_app. simpl.
      now rewrite list_elem_of_singleton.
Qed.

Lemma Counter_NoDup (l : list string) : NoDup (fst <$> Counter l).
Proof.
  induction l as [|k l IH] using rev_ind; [constructor|].
  rewrite Counter_snoc.
  destruct (decide (k ∈ fst <$> Counter l)) as [Hin|Hnotin].
  - now rewrite (counter_incr_in _ _ Hin).
  - rewrite (counter_incr_notin _ _ Hnotin), fmap_app. simpl.
    apply NoDup_app. split; [assumption|]. split; [|apply NoDup_singleton].
    intros x Hx Hx'. apply list_elem_of_singleton in Hx' as ->. contradiction.
Qed.

Lemma occurrences_pos (c : string) (l : list string) :
  c ∈ l -> (0 < occurrences c l)%nat.
Proof.
  unfold occurrences. induction l as [|x l IH]; intros Hin.
  - now apply elem_of_nil in Hin.
  - simpl. destruct (String.eqb_spec c x) as [->|Hne]; simpl; [lia|].
    apply elem_of_cons in Hin as [Hin|Hin]; [contradiction|now apply IH].
Qed.

Lemma Counter_elem (l : list string) (k : string) (n : nat) :
  (k, n) ∈ Counter l <-> k ∈ l /\ n = occurrences k l.
Proof.
  split.
  - intros Hin. split.
    + apply Counter_keys. now apply (list_elem_of_fmap_2 fst) in Hin.
    + rewrite <- Counter_count. symmetry.
      apply count_in_elem; [apply Counter_NoDup|assumption].
  - intros [Hk ->]. apply (proj2 (Counter_keys l k)) in Hk.
    apply list_elem_of_fmap in Hk as ([k' n] & -> & Hin).
    simpl. rewrite <- Counter_count.
    now rewrite (count_in_elem k' n _ (Counter_NoDup l) Hin).
Qed.

Lemma index_of_snoc_in (c k : string) (l : list string) :
  c ∈ l -> index_of c (l ++ [k]) = index_of c l.
Proof.
  induction l as [|x l IH]; intros Hin.
  - now apply elem_of_nil in Hin.
  - simpl. destruct (String.eqb_spec x c) as [_|Hne]; [reflexivity|].
    f_equal. apply IH. apply elem_of_cons in Hin as [Hin|Hin]; congruence.
Qed.

Lemma index_of_in (c : string) (l : list string) :
  c ∈ l -> (index_of c l < length l)%nat.
Proof.
  induction l as [|x l IH]; intros Hin.
  - now apply elem_of_nil in Hin.
  - simpl. destruct (String.eqb_spec x c) as [_|Hne]; [lia|].
    apply elem_of_cons in Hin as [Hin|Hin]; [congruence|].
    specialize (IH Hin). lia.
Qed.

Lemma index_of_snoc_new (k : string) (l : list string) :
  k ∉ l -> index_of k (l ++ [k]) = length l.
Proof.
  induction l as [|x l IH]; intros Hin; simpl.
  - now rewrite String.eqb_refl.
  - apply not_elem_of_cons in Hin as [Hne Hin].
    destruct (String.eqb_spec x k) as [->|_]; [contradiction|]. now rewrite IH.
Qed.

Lemma StronglySorted_weaken {A : Type} (R R' : A -> A -> Prop) (l : list A) :
  (forall x y, x ∈ l -> y ∈ l -> R x y -> R' x y) ->
  StronglySorted R l -> StronglySorted R' l.
Proof.
  intros Himp Hs. induction Hs as [|x l Hs IH Hx]; constructor.
  - apply IH. intros y z Hy Hz. apply Himp; now apply list_elem_of_further.
  - rewrite Forall_forall in *. intros y Hy.
    apply Himp; [apply list_elem_of_here|now apply list_elem_of_further|now apply Hx].
Qed.

(** The keys of a [Counter] are in the order of their first occurrence. *)
Lemma Counter_order (l : list string) :
  StronglySorted (fun a b => (index_of a l < index_of b l)%nat) (fst <$> Counter l).
Proof.
  induction l as [|k l IH] using rev_ind; [constructor|].
  rewrite Counter_snoc.
  assert (Hold : StronglySorted
                   (fun a b => (index_of a (l ++ [k]) < index_of b (l ++ [k]))%nat)
                   (fst <$> Counter l)).
  { revert IH. apply StronglySorted_weaken. intros a b Ha Hb.
    apply (proj1 (Counter_keys l a)) in Ha. apply (proj1 (Counter_keys l b)) in Hb.
    now rewrite (index_of_snoc_in a k l Ha), (index_of_snoc_in b k l Hb). }
  destruct (decide (k ∈ fst <$> Counter l)) as [Hin|Hnotin].
  - now rewrite (counter_incr_in _ _ Hin).
  - rewrite (counter_incr_notin _ _ Hnotin), fmap_app. simpl.
    apply StronglySorted_app_2; [|assumption|repeat constructor].
    intros a b Ha Hb. apply list_elem_of_singleton in Hb as ->.
    apply (proj1 (Counter_keys l a)) in Ha.
    rewrite (index_of_snoc_in a k l Ha), index_of_snoc_new.
    + now apply index_of_in.
    + intros Hk. apply Hnotin. now apply Counter_keys.
Qed.

Lemma insert_desc_perm (x : string * nat) (l : list (string * nat)) :
  insert_desc x l ≡ₚ x :: l.
Proof.
  induction l as [|y l IH]; simpl; [reflexivity|].
  destruct (snd x <? snd y)%nat; [|reflexivity].
  rewrite IH. apply Permutation_swap.
Qed.

Lemma sort_desc_perm (l : list (string * nat)) : sort_desc l ≡ₚ l.
Proof.
  induction l as [|x l IH]; simpl; [reflexivity|].
  now rewrite insert_desc_perm, IH.
Qed.

Section Stable.
Variable T : string * nat -> string * nat -> Prop.

Lemma by_count_then_le (x y : string * nat) :
  by_count_then T x y -> (snd y <= snd x)%nat.
Proof. unfold by_count_then. lia. Qed.

Lemma insert_desc_sorted (x : string * nat) (s : list (string * nat)) :
  StronglySorted (by_count_then T) s -> Forall (T x) s ->
  StronglySorted (by_count_then T) (insert_desc x s).
Proof.
  induction 1 as [|y s Hs IH Hy]; intros Hx; simpl; [repeat constructor|].
  apply Forall_cons in Hx as [Hxy Hxs].
  destruct (Nat.ltb_spec (snd x) (snd y)) as [Hlt|Hge].
  - constructor; [now apply IH|].
    rewrite (insert_desc_perm x s). constructor; [now left|assumption].
  - constructor; [now constructor|].
    rewrite Forall_forall in Hy, Hxs.
    apply Forall_forall. intros z Hz.
    assert (Hle : (snd z <= snd x)%nat /\ T x z).
    { apply elem_of_cons in Hz as [->|Hz]; [split; [lia|assumption]|].
      split; [|now apply Hxs]. specialize (Hy z Hz).
      apply by_count_then_le in Hy. lia. }
    destruct Hle as [Hle HT]. unfold by_count_then.
    destruct (decide (snd z = snd x)) as [Heq|Hne]; [right; now split|left; lia].
Qed.

Lemma sort_desc_stable (l : list (string * nat)) :
  StronglySorted T l -> StronglySorted (by_count_then T) (sort_desc l).
Proof.
  induction 1 as [|x l Hl IH Hx]; simpl; [constructor|].
  apply insert_desc_sorted; [assumption|]. now rewrite sort_desc_perm.
Qed.

End Stable.

Lemma StronglySorted_fmap_inv {A B : Type} (f : A -> B) (R : B -> B -> Prop)
    (l : list A) :
  StronglySorted R (f <$> l) -> StronglySorted (fun x y => R (f x) (f y)) l.
Proof.
  induction l as [|x l IH]; intros Hs; [constructor|].
  rewrite fmap_cons in Hs. apply StronglySorted_inv in Hs as [Hs Hx].
  constructor; [now apply IH|].
  rewrite Forall_forall in Hx. apply Forall_forall. intros y Hy.
  apply Hx. now apply list_elem_of_fmap_2.
Qed.

Lemma elem_of_take_elem {A : Type} (x : A) (n : nat) (l : list A) :
  x ∈ take n l -> x ∈ l.
Proof. intros H. rewrite <- (take_drop n l). apply elem_of_app. now left. Qed.

Lemma sorted_counts (labels : list string) :
  StronglySorted (ranks_before labels) (sort_desc (Counter labels)).
Proof.
  apply sort_desc_stable.
  apply (StronglySorted_fmap_inv fst
           (fun a b => (index_of a labels < index_of b labels)%nat)).
  apply Counter_order.
Qed.

Lemma category_label_fold (r : row) :
  category_label r <> ""
  /\ (category r.2 = None \/ category r.2 = Some "" ->
      category_label r = "Uncategorized")
  /\ (forall c, category r.2 = Some c -> c <> "" -> category_label r = c).
Proof.
  unfold category_label. destruct (category r.2) as [[|a c]|]; simpl.
  - repeat split; [discriminate|]. intros c [= <-] Hc. contradiction.
  - repeat split; [discriminate|intros [H|H]; discriminate|].
    now intros c' [= <-] _.
  - repeat split; [discriminate|]. intros c H. discriminate.
Qed.

Lemma occurrences_filter (c : string) (rows : list row) :
  occurrences c (List.map category_label rows)
  = length (List.filter (fun r => String.eqb c (category_label r)) rows).
Proof.
  unfold occurrences. induction rows as [|r rows IH]; simpl; [reflexivity|].
  destruct (String.eqb c (category_label r)); simpl; now rewrite IH.
Qed.

Lemma filter_length_perm {A : Type} (p : A -> bool) (l1 l2 : list A) :
  l1 ≡ₚ l2 -> length (List.filter p l1) = length (List.filter p l2).
Proof.
  induction 1 as [|x l1 l2 _ IH|x y l|l1 l2 l3 _ IH1 _ IH2]; simpl.
  - reflexivity.
  - destruct (p x); simpl; now rewrite IH.
  - destruct (p x), (p y); reflexivity.
  - now rewrite IH1.
Qed.

(** The labels counted are those of the stored products. *)
Lemma categories_of_stored (db : database) (c : string) :
  occurrences c (categories_of db) = products_labelled db c.
Proof.
  unfold categories_of, products_labelled. rewrite occurrences_filter.
  apply filter_length_perm, order_by_id_desc_perm.
Qed.

(** C4: for every store, the category counts of [update_dashboard] have at
    most 8 entries with distinct labels; each entry gives the number of
    stored products of that label; the entries are in descending order of
    count, equal counts in the order in which the labels were first met in
    the listing (newest product first); a label that is left out ranks after
    each of the 8 entries kept; and a product with an empty or missing
    category is counted under "Uncategorized". *)
Theorem update_dashboard_top_categories (db : database) :
  exists (d : dashboard) (rows : list row),
    update_dashboard db = Returned d
    /\ fetch_products "" db = Returned rows
    /\ categories_of db = List.map category_label rows
    /\ (forall r : row, r ∈ rows <-> products db !! r.1 = Some r.2)
    /\ StronglySorted (fun i j : Z => j < i) (fst <$> rows)
    /\ (forall c : string, occurrences c (categories_of db) = products_labelled db c)
    /\ (length (top_counts d) <= 8)%nat
    /\ NoDup (fst <$> top_counts d)
    /\ (forall (c : string) (n : nat),
          (c, n) ∈ top_counts d ->
          c ∈ categories_of db
          /\ n = products_labelled db c
          /\ (0 < n)%nat)
    /\ StronglySorted (ranks_before (categories_of db)) (top_counts d)
    /\ (forall c : string,
          c ∈ categories_of db ->
          c ∉ fst <$> top_counts d ->
          length (top_counts d) = 8%nat
          /\ forall e : string * nat,
               e ∈ top_counts d ->
               ranks_before (categories_of db) e (c, products_labelled db c))
    /\ (forall r : row,
          products db !! r.1 = Some r.2 ->
          category_label r ∈ categories_of db
          /\ (0 < products_labelled db (category_label r))%nat
          /\ category_label r <> ""
          /\ (category r.2 = None \/ category r.2 = Some "" ->
              category_label r = "Uncategorized")
          /\ (forall c, category r.2 = Some c -> c <> "" -> category_label r = c)).
Proof.
  exists (dashboard_of (select_all db)), (select_all db).
  split; [apply update_dashboard_returns|]. split; [reflexivity|].
  split; [reflexivity|]. split; [intros r; apply select_all_elem|].
  split.
  { apply strictly_descending; [apply select_all_sorted|apply select_all_NoDup_ids]. }
  split; [apply categories_of_stored|].
  change (top_counts (dashboard_of (select_all db)))
    with (take 8 (sort_desc (Counter (categories_of db)))).
  set (labels := categories_of db).
  set (s := sort_desc (Counter labels)).
  assert (Hperm : s ≡ₚ Counter labels) by apply sort_desc_perm.
  assert (Hsorted : StronglySorted (ranks_before labels) s) by apply sorted_counts.
  split; [apply firstn_le_length|].
  split.
  { rewrite fmap_take. apply (sublist_NoDup _ (fst <$> s)); [|apply sublist_take].
    rewrite Hperm. apply Counter_NoDup. }
  split.
  { intros c n Hin. apply elem_of_take_elem in Hin. rewrite Hperm in Hin.
    apply Counter_elem in Hin as [Hc Hn].
    rewrite <- (categories_of_stored db c). fold labels.
    repeat split; [assumption..|]. rewrite Hn. now apply occurrences_pos. }
  split.
  { rewrite <- (take_drop 8 s) in Hsorted.
    now apply StronglySorted_app_1_l in Hsorted. }
  split.
  { intros c Hc Hnotin. rewrite <- (categories_of_stored db c). fold labels.
    assert (Hin : (c, occurrences c labels) ∈ s).
    { rewrite Hperm. now apply Counter_elem. }
    rewrite <- (take_drop 8 s) in Hin. apply elem_of_app in Hin as [Hin|Hin].
    { exfalso. apply Hnotin. now apply (list_elem_of_fmap_2 fst) in Hin. }
    split.
    - apply length_take_le.
      destruct (decide (8 <= length s)%nat) as [Hle|Hgt]; [assumption|].
      rewrite drop_ge in Hin by lia. now apply elem_of_nil in Hin.
    - intros e He. rewrite <- (take_drop 8 s) in Hsorted.
      now apply (StronglySorted_app_1_elem_of _ _ _ _ _ Hsorted). }
  intros r Hr.
  assert (Hin : category_label r ∈ labels).
  { unfold labels, categories_of.
    apply list_elem_of_In, in_map, list_elem_of_In, select_all_elem, Hr. }
  split; [exact Hin|]. split; [|apply category_label_fold].
  rewrite <- (categories_of_stored db). now apply occurrences_pos.
Qed.

(** ** More on the listing *)

Lemma filter_sorted {A : Type} (R : A -> A -> Prop) (p : A -> bool) (l : list A) :
  StronglySorted R l -> StronglySorted R (List.filter p l).
Proof.
  induction 1 as [|x l Hl IH Hx]; simpl; [constructor|].
  destruct (p x); [|assumption].
  constructor; [assumption|].
  rewrite Forall_forall in *. intros y Hy. apply Hx.
  apply list_elem_of_In, filter_In in Hy as [Hy _]. now apply list_elem_of_In.
Qed.

Lemma filter_NoDup_ids (p : row -> bool) (l : list row) :
  NoDup (fst <$> l) -> NoDup (fst <$> List.filter p l).
Proof.
  induction l as [|r l IH]; intros Hnd; [constructor|].
  rewrite fmap_cons in Hnd. apply NoDup_cons in Hnd as [Hr Hl].
  cbn [List.filter]. destruct (p r); [|now apply IH].
  rewrite fmap_cons. apply NoDup_cons. split; [|now apply IH].
  intros Hin. apply Hr.
  apply list_elem_of_fmap in Hin as (r' & -> & Hin).
  apply list_elem_of_fmap_2.
  apply list_elem_of_In, filter_In in Hin as [Hin _]. now apply list_elem_of_In.
Qed.

Lemma elem_of_filter_bool {A : Type} (p : A -> bool) (l : list A) (x : A) :
  x ∈ List.filter p l <-> x ∈ l /\ p x = true.
Proof. now rewrite list_elem_of_In, filter_In, <- list_elem_of_In. Qed.

Lemma ids_functional (l : list row) (i : Z) (x y : product) :
  NoDup (fst <$> l) -> (i, x) ∈ l -> (i, y) ∈ l -> x = y.
Proof.
  induction l as [|r l IH]; intros Hnd Hx Hy; [now apply elem_of_nil in Hx|].
  rewrite fmap_cons in Hnd. apply NoDup_cons in Hnd as [Hr Hl].
  apply elem_of_cons in Hx as [Hx|Hx], Hy as [Hy|Hy].
  - congruence.
  - exfalso. apply Hr. subst r. now apply (list_elem_of_fmap_2 fst) in Hy.
  - exfalso. apply Hr. subst r. now apply (list_elem_of_fmap_2 fst) in Hx.
  - now apply IH.
Qed.

(** Two listings in id order without an id twice and with the same rows are
    the same list. *)
Lemma rows_sorted_unique (l1 l2 : list row) :
  StronglySorted id_desc l1 -> StronglySorted id_desc l2 ->
  NoDup (fst <$> l1) -> NoDup (fst <$> l2) ->
  (forall r, r ∈ l1 <-> r ∈ l2) ->
  l1 = l2.
Proof.
  intros Hs1 Hs2 Hn1 Hn2 Hsame.
  apply (StronglySorted_unique_strong id_desc); try assumption.
  - intros [i x] [j y] Hx Hy Hxy Hyx. unfold id_desc in *. simpl in *.
    assert (i = j) as -> by lia. f_equal.
    apply Hsame in Hx. exact (ids_functional l2 j x y Hn2 Hx Hy).
  - apply NoDup_Permutation; [now apply (NoDup_fmap_1 fst)..|assumption].
Qed.

Lemma ids_sorted_unique (l1 l2 : list Z) :
  StronglySorted (fun i j : Z => j < i) l1 ->
  StronglySorted (fun i j : Z => j < i) l2 ->
  (forall i, i ∈ l1 <-> i ∈ l2) ->
  l1 = l2.
Proof.
  intros Hs1 Hs2 Hsame.
  assert (Hnd : forall l, StronglySorted (fun i j : Z => j < i) l -> NoDup l).
  { induction 1 as [|x l Hl IH Hx]; constructor; [|assumption].
    intros Hin. rewrite Forall_forall in Hx. specialize (Hx x Hin). lia. }
  apply (StronglySorted_unique_strong (fun i j : Z => j < i)); try assumption.
  - intros; lia.
  - apply NoDup_Permutation; auto.
Qed.

Lemma matching_filters_listing (pat : string) (db : database) :
  matching pat db = List.filter (where_like pat) (select_all db).
Proof.
  apply rows_sorted_unique.
  - apply matching_sorted.
  - apply filter_sorted, select_all_sorted.
  - apply matching_NoDup_ids.
  - apply filter_NoDup_ids, select_all_NoDup_ids.
  - intros r. now rewrite elem_of_filter_bool, matching_elem, select_all_elem.
Qed.

(** X1: whenever a search returns, it returns the rows of the unfiltered
    listing that match the pattern, in the order of that listing; it fails
    to return only on a pattern of more than 50000 bytes with a product to
    try it on. *)
Theorem fetch_products_filters_listing (db : database) (f : string) :
  exists listing : list row,
    fetch_products "" db = Returned listing
    /\ match fetch_products f db with
       | Returned rows =>
           rows
           = List.filter (fun r => is_empty f || where_like ("%" ++ f ++ "%") r)
               listing
       | Raised _ =>
           Like.pattern_too_long ("%" ++ f ++ "%") = true /\ products db <> ∅
       end.
Proof.
  exists (select_all db). split; [reflexivity|]. destruct f as [|c f].
  - rewrite fetch_products_no_filter. cbn [is_empty orb].
    symmetry. now apply filter_all.
  - rewrite fetch_products_filter. cbn [is_empty orb].
    destruct (select_like_cases ("%" ++ String c f ++ "%") db)
      as [->|(-> & Hl & Hne)]; [apply matching_filters_listing|now split].
Qed.

(** X2: [delete_product] removes the row of that id from the listing and
    nothing else (nothing at all when the id does not fit the engine's
    integers); deleting a second time changes nothing more. *)
Theorem delete_product_listing (db : database) (id : Z) :
  exists listing : list row,
    fetch_products "" db = Returned listing
    /\ fetch_products "" (snd (delete_product id db))
       = Returned
           (List.filter (fun r => negb (fits_int64 id && (fst r =? id))) listing)
    /\ snd (delete_product id (snd (delete_product id db)))
       = snd (delete_product id db).
Proof.
  exists (select_all db). split; [reflexivity|].
  destruct (fits_int64 id) eqn:E.
  - rewrite !(delete_product_done _ id E). cbn [snd products products_seq users].
    split.
    + rewrite fetch_products_no_filter. f_equal. apply rows_sorted_unique.
      * apply select_all_sorted.
      * apply filter_sorted, select_all_sorted.
      * apply select_all_NoDup_ids.
      * apply filter_NoDup_ids, select_all_NoDup_ids.
      * intros r. rewrite elem_of_filter_bool, !select_all_elem. simpl.
        rewrite lookup_delete, negb_true_iff, Z.eqb_neq.
        destruct (decide (id = r.1)); intuition congruence.
    + now rewrite delete_delete_eq.
  - rewrite !(delete_product_refused _ id E). cbn [snd].
    split; [|reflexivity].
    rewrite fetch_products_no_filter. f_equal. symmetry. now apply filter_all.
Qed.

Lemma update_product_ids (db : database) (id : Z) (n c : string) (q : Z) (p : float)
    (k : Z) :
  is_Some (products (snd (update_product id n c q p db)) !! k)
  <-> is_Some (products db !! k).
Proof.
  destruct (update_product_file db id n c q p) as [-> | ->]; [reflexivity|].
  cbn [products]. rewrite lookup_alter.
  destruct (decide (id = k)) as [->|_]; [|reflexivity].
  destruct (products db !! k); simpl; split; intros [x H]; eauto; discriminate.
Qed.

Lemma listing_ids (db : database) (k : Z) :
  k ∈ fst <$> select_all db <-> is_Some (products db !! k).
Proof.
  rewrite list_elem_of_fmap. split.
  - intros ([i x] & -> & Hin). apply select_all_elem in Hin. simpl in *. eauto.
  - intros [x Hx]. exists (k, x). split; [reflexivity|]. now apply select_all_elem.
Qed.

(** X3: [update_product] never adds or removes a product and keeps the
    order of the listing: the ids listed are the same before and after.
    And of two updates of the same id, the second one, when it is accepted,
    decides the fields whatever the first did. *)
Theorem update_product_listing (db : database) (id : Z) (n c n' c' : string)
    (q q' : Z) (p p' : float) :
  (exists rows rows' : list row,
     fetch_products "" db = Returned rows
     /\ fetch_products "" (snd (update_product id n c q p db)) = Returned rows'
     /\ fst <$> rows' = fst <$> rows)
  /\ (fits_int64 q' && fits_int64 id = true ->
      snd (update_product id n' c' q' p' (snd (update_product id n c q p db)))
      = snd (update_product id n' c' q' p' db)).
Proof.
  split.
  - exists (select_all db), (select_all (snd (update_product id n c q p db))).
    split; [reflexivity|]. split; [reflexivity|].
    apply ids_sorted_unique.
    + apply strictly_descending; [apply select_all_sorted|apply select_all_NoDup_ids].
    + apply strictly_descending; [apply select_all_sorted|apply select_all_NoDup_ids].
    + intros k. rewrite !listing_ids. apply update_product_ids.
  - intros E. rewrite !(update_product_done _ id n' c' q' p' E).
    destruct (update_product_file db id n c q p) as [-> | ->]; [reflexivity|].
    cbn [snd products products_seq users]. now rewrite alter_alter_eq.
Qed.

Lemma update_product_listing_witness :
  fits_int64 7 && fits_int64 1 = true
  /\ snd (update_product 1 "Widget" "Tools" 7 2.5%float
            (snd (update_product 1 "Gadget" "Toys" 3 1%float one_widget)))
     = snd (update_product 1 "Widget" "Tools" 7 2.5%float one_widget).
Proof.
  split; [reflexivity|].
  exact (proj2 (update_product_listing one_widget 1 "Gadget" "Toys" "Widget" "Tools"
                  3 7 1%float 2.5%float) eq_refl).
Defined.

(** ** How the mutations show in the dashboard *)

Lemma total_products_size (db : database) :
  total_products (dashboard_of (select_all db)) = size (products db).
Proof.
  unfold dashboard_of. cbn [total_products].
  rewrite <- length_map_to_list. apply Permutation_length, order_by_id_desc_perm.
Qed.

Lemma total_quantity_sum (db : database) :
  total_quantity (dashboard_of (select_all db))
  = sum_rows quantity_or_0 (map_to_list (products db)).
Proof.
  unfold dashboard_of. cbn [total_quantity].
  rewrite fold_left_sum, Z.add_0_l. apply sum_rows_perm, order_by_id_desc_perm.
Qed.

(** X4: after an insertion that succeeded the dashboard counts one product
    more and the total quantity has grown by the quantity inserted; after
    one that failed both are as before. *)
Theorem insert_product_dashboard (db : database) (n c : string) (q : Z) (p : float)
    (now : string) :
  exists d d' : dashboard,
    update_dashboard db = Returned d
    /\ update_dashboard (snd (insert_product n c q p now db)) = Returned d'
    /\ if fst (insert_product n c q p now db) then
         total_products d' = S (total_products d)
         /\ total_quantity d' = total_quantity d + q
       else
         total_products d' = total_products d
         /\ total_quantity d' = total_quantity d.
Proof.
  eexists. eexists.
  split; [apply update_dashboard_returns|]. split; [apply update_dashboard_returns|].
  destruct (fits_int64 q && (next_rowid db <=? max_int64)) eqn:E.
  - rewrite (insert_product_done db n c q p now E). cbn [fst snd].
    rewrite !total_products_size, !total_quantity_sum. cbn [products]. split.
    + apply map_size_insert_None, next_rowid_fresh.
    + rewrite (sum_rows_perm _ _ _
                 (map_to_list_insert (products db) (next_rowid db) _
                    (next_rowid_fresh db))).
      unfold sum_rows. cbn [fold_right]. unfold quantity_or_0 at 1.
      cbn [snd quantity]. lia.
  - rewrite (insert_product_refused db n c q p now E). cbn [fst snd]. now split.
Qed.

(** X5: when the id is stored and fits the engine's integers, after
    [delete_product] the dashboard counts one product less and the total
    quantity has dropped by the quantity of that product; after an
    [update_product] with a quantity that fits, the count is the same and
    the total quantity has changed by the difference of the new and the old
    quantity. *)
Theorem delete_update_dashboard (db : database) (id : Z) (r : product) :
  products db !! id = Some r ->
  fits_int64 id = true ->
  exists d : dashboard,
    update_dashboard db = Returned d
    /\ (exists d' : dashboard,
          update_dashboard (snd (delete_product id db)) = Returned d'
          /\ total_products d' = pred (total_products d)
          /\ total_quantity d' = total_quantity d - quantity_or_0 (id, r))
    /\ (forall (n c : string) (q : Z) (p : float),
          fits_int64 q = true ->
          exists d' : dashboard,
            update_dashboard (snd (update_product id n c q p db)) = Returned d'
            /\ total_products d' = total_products d
            /\ total_quantity d' = total_quantity d - quantity_or_0 (id, r) + q).
Proof.
  intros Hr Hid.
  assert (Hold : sum_rows quantity_or_0 (map_to_list (products db))
                 = quantity_or_0 (id, r)
                   + sum_rows quantity_or_0 (map_to_list (delete id (products db)))).
  { now rewrite <- (sum_rows_perm _ _ _ (map_to_list_delete (products db) id r Hr)). }
  eexists. split; [apply update_dashboard_returns|]. split.
  - eexists. split; [apply update_dashboard_returns|].
    rewrite (delete_product_done db id Hid). cbn [snd].
    rewrite !total_products_size, !total_quantity_sum. cbn [products]. split.
    + apply map_size_delete_Some. eauto.
    + lia.
  - intros n c q p Hq. eexists. split; [apply update_dashboard_returns|].
    rewrite (update_product_done db id n c q p) by (now rewrite Hq, Hid). cbn [snd].
    rewrite !total_products_size, !total_quantity_sum. cbn [products].
    set (r' := Product n (Some c) (Some q) (bind_real p) (added_on r)).
    assert (Halt : alter (fun r0 => Product n (Some c) (Some q) (bind_real p) (added_on r0))
                     id (products db)
                   = <[id := r']> (delete id (products db))).
    { apply map_eq. intros k. rewrite lookup_alter, lookup_insert, lookup_delete.
      destruct (decide (id = k)) as [->|_]; [now rewrite Hr|reflexivity]. }
    rewrite Halt. split.
    + rewrite map_size_insert_None by apply lookup_delete_eq.
      rewrite map_size_delete_Some by eauto.
      assert (size (products db) <> 0%nat); [|lia].
      apply map_size_ne_0_lookup. eauto.
    + rewrite (sum_rows_perm _ _ _
                 (map_to_list_insert (delete id (products db)) id r'
                    (lookup_delete_eq _ _))).
      unfold sum_rows in *. cbn [fold_right]. unfold quantity_or_0 at 1.
      cbn [snd quantity r']. lia.
Qed.

Lemma delete_update_dashboard_witness :
  products one_widget !! 1
  = Some (Product "widget" (Some "tools") (Some 1) (Some 1%float) (Some "2024-01-01 10:00:00"))
  /\ fits_int64 1 = true
  /\ exists d : dashboard, update_dashboard one_widget = Returned d.
Proof.
  split; [reflexivity|]. split; [reflexivity|].
  destruct (delete_update_dashboard one_widget 1
              (Product "widget" (Some "tools") (Some 1) (Some 1%float)
                 (Some "2024-01-01 10:00:00"))
              eq_refl eq_refl) as (d & Hd & _).
  now exists d.
Defined.

(** ** Credentials over a run *)

Lemma check_credentials_iff (db : database) (u p : string) :
  check_credentials u p db = true <->
  exists (id : Z) (rec : user),
    users db !! id = Some rec
    /\ username rec = u
    /\ password_hash rec = sha256_hexdigest p.
Proof.
  unfold check_credentials. rewrite existsb_exists. split.
  - intros ([id rec] & Hin & H). apply andb_true_iff in H as [Hu Hp].
    apply String.eqb_eq in Hu, Hp. cbn [snd] in Hu, Hp.
    exists id, rec. repeat split; try assumption.
    now apply elem_of_map_to_list, list_elem_of_In.
  - intros (id & rec & Hin & Hu & Hp). exists (id, rec). split.
    + now apply list_elem_of_In, elem_of_map_to_list.
    + cbn [snd]. apply andb_true_iff. split; now apply String.eqb_eq.
Qed.

Lemma init_db_taken (db : database) :
  is_Some (users db !! 1) -> init_db db = db.
Proof.
  intros H. unfold init_db. now rewrite (bool_decide_eq_true_2 _ H).
Qed.

Lemma init_db_cases (db : database) :
  init_db db = db
  \/ (users db !! 1 = None
      /\ init_db db
         = Database (products db) (products_seq db)
             (<[1 := User default_username (sha256_hexdigest default_password)]>
                (users db))).
Proof.
  unfold init_db. destruct (bool_decide_reflect (is_Some (users db !! 1))) as [H|H].
  - now left.
  - cbn [orb]. destruct (existsb _ _); [now left|right].
    split; [|reflexivity]. destruct (users db !! 1); [|reflexivity].
    exfalso. apply H. eauto.
Qed.

(** X6: [init_db] can run at every start: a second run changes nothing, the
    products and the id counter are never touched, no stored credential is
    changed or removed, and whoever could log in before can log in after. *)
Theorem init_db_idempotent (db : database) :
  init_db (init_db db) = init_db db
  /\ products (init_db db) = products db
  /\ products_seq (init_db db) = products_seq db
  /\ (forall (id : Z) (rec : user),
        users db !! id = Some rec -> users (init_db db) !! id = Some rec)
  /\ (forall u p : string,
        check_credentials u p db = true ->
        check_credentials u p (init_db db) = true).
Proof.
  assert (Hkeep : forall (id : Z) (rec : user),
             users db !! id = Some rec -> users (init_db db) !! id = Some rec).
  { intros id rec Hrec. destruct (init_db_cases db) as [->|[Hnone ->]]; [assumption|].
    cbn [users]. rewrite lookup_insert_ne; [assumption|]. congruence. }
  split; [|split; [|split; [|split]]].
  - destruct (init_db_cases db) as [H|[Hnone H]].
    + now rewrite !H.
    + rewrite H. apply init_db_taken. cbn [users]. rewrite lookup_insert_eq. eauto.
  - apply init_db_products.
  - apply init_db_products.
  - exact Hkeep.
  - intros u p. rewrite !check_credentials_iff.
    intros (id & rec & Hrec & Hu & Hp). exists id, rec. auto.
Qed.

Lemma first_run_users :
  users (init_db empty_db)
  = {[1 := User default_username (sha256_hexdigest default_password)]}.
Proof.
  destruct (init_db_cases empty_db) as [H|[_ ->]].
  - exfalso. assert (Hu : users (init_db empty_db) !! 1 = None).
    { rewrite H. apply lookup_empty. }
    revert Hu. unfold init_db. cbn. discriminate.
  - cbn [users empty_db]. apply insert_empty.
Qed.

Lemma apply_op_users (db : database) (o : op) :
  is_Some (users db !! 1) -> users (apply_op db o) = users db.
Proof.
  intros H. destruct o as [|n c q p now|id n c q p|id].
  - cbn [apply_op]. now rewrite init_db_taken.
  - op_file; reflexivity.
  - op_file; reflexivity.
  - op_file; reflexivity.
Qed.

Lemma run_users (ops : list op) :
  users (run ops)
  = {[1 := User default_username (sha256_hexdigest default_password)]}.
Proof.
  rewrite <- first_run_users. unfold run.
  assert (H : forall db,
             users db = users (init_db empty_db) ->
             users (fold_left apply_op ops db) = users (init_db empty_db)).
  { induction ops as [|o ops IH]; intros db Hdb; [assumption|].
    cbn [fold_left]. apply IH. rewrite apply_op_users; [assumption|].
    rewrite Hdb, first_run_users, lookup_singleton_eq. eauto. }
  now apply H.
Qed.

(** X7: no store call adds, changes or removes a credential.  After first
    run and any calls, the only credential is the default one, and
    [check_credentials] accepts exactly the username "admin" with a password
    whose digest is that of "admin123". *)
Theorem credentials_frozen (ops : list op) :
  users (run ops)
  = {[1 := User default_username (sha256_hexdigest default_password)]}
  /\ forall u p : string,
       check_credentials u p (run ops) = true <->
       u = "admin" /\ sha256_hexdigest p = sha256_hexdigest "admin123".
Proof.
  split; [apply run_users|].
  intros u p. rewrite check_credentials_iff, run_users. split.
  - intros (id & rec & Hrec & Hu & Hp).
    apply lookup_singleton_Some in Hrec as [_ <-].
    cbn [username password_hash] in Hu, Hp. split; [now symmetry|now symmetry].
  - intros [-> Hp]. exists 1, (User default_username (sha256_hexdigest default_password)).
    rewrite lookup_singleton_eq. cbn [username password_hash].
    split; [reflexivity|]. split; [reflexivity|now symmetry].
Qed.

(** ** More on the search *)
Section SearchFacts.
Import Like.

Lemma to_lower_idem (c : ascii) : to_lower (to_lower c) = to_lower c.
Proof. destruct c as [[] [] [] [] [] [] [] []]; reflexivity. Qed.

Lemma to_lower_percent (c : ascii) : Ascii.eqb (to_lower c) "%" = Ascii.eqb c "%".
Proof. destruct c as [[] [] [] [] [] [] [] []]; reflexivity. Qed.

Lemma to_lower_underscore (c : ascii) : Ascii.eqb (to_lower c) "_" = Ascii.eqb c "_".
Proof. destruct c as [[] [] [] [] [] [] [] []]; reflexivity. Qed.

Lemma to_lower_nul (c : ascii) : Ascii.eqb (to_lower c) "000" = Ascii.eqb c "000".
Proof. destruct c as [[] [] [] [] [] [] [] []]; reflexivity. Qed.

Lemma to_lower_bytes (c : ascii) :
  (N_of_ascii (to_lower c) <? 128)%N = (N_of_ascii c <? 128)%N.
Proof. destruct c as [[] [] [] [] [] [] [] []]; reflexivity. Qed.

Lemma like_other_unfold (c : ascii) (p s : string) :
  Ascii.eqb c "%" = false ->
  like (String c p) s
  = match s with
    | EmptyString => false
    | String d s' => (Ascii.eqb c "_" || eq_nocase c d) && like p s'
    end.
Proof. intros Hc. cbn [like]. rewrite Hc. now destruct s. Qed.

Lemma like_lower (p s : string) : like (lower p) s = like p s.
Proof.
  revert s. induction p as [|c p IH]; intros s; [reflexivity|].
  cbn [lower]. destruct (Ascii.eqb c "%") eqn:Hc.
  - apply Ascii.eqb_eq in Hc as ->. change (to_lower "%") with "%"%char.
    induction s as [|d s IHs].
    + rewrite !like_percent_unfold. now rewrite IH.
    + rewrite (like_percent_unfold (lower p)), (like_percent_unfold p).
      now rewrite IH, IHs.
  - rewrite !like_other_unfold by (now rewrite ?to_lower_percent).
    destruct s as [|d s]; [reflexivity|].
    rewrite IH, to_lower_underscore. unfold eq_nocase. now rewrite to_lower_idem.
Qed.

Lemma c_string_lower (s : string) : c_string (lower s) = lower (c_string s).
Proof.
  induction s as [|c s IH]; [reflexivity|].
  cbn [lower c_string]. rewrite to_lower_nul.
  destruct (Ascii.eqb c "000"); [reflexivity|]. cbn [lower]. now rewrite IH.
Qed.

Lemma utf8_length_lower (s : string) : utf8_length (lower s) = utf8_length s.
Proof.
  induction s as [|c s IH]; [reflexivity|].
  cbn [lower utf8_length]. now rewrite to_lower_bytes, IH.
Qed.

Lemma lower_app (s t : string) : lower (s ++ t) = (lower s ++ lower t)%string.
Proof.
  induction s as [|c s IH]; [reflexivity|].
  rewrite !app_cons. cbn [lower]. now rewrite app_cons, IH.
Qed.

Lemma like_text_lower (p s : string) : like_text (lower p) s = like_text p s.
Proof. unfold like_text. now rewrite c_string_lower, like_lower. Qed.

End SearchFacts.

Lemma where_like_lower (p : string) (r : row) :
  where_like (Like.lower p) r = where_like p r.
Proof.
  unfold where_like. rewrite like_text_lower.
  destruct (category r.2); [now rewrite like_text_lower|reflexivity].
Qed.

(** X8: the search does not look at the case of the ASCII letters of the
    filter text: a filter and the same filter in lower case give the same
    result, exception included. *)
Theorem fetch_products_filter_case (db : database) (f : string) :
  fetch_products (Like.lower f) db = fetch_products f db.
Proof.
  destruct f as [|c f]; [reflexivity|].
  cbn [Like.lower]. rewrite !fetch_products_filter.
  change (String (Like.to_lower c) (Like.lower f)) with (Like.lower (String c f)).
  replace ("%" ++ Like.lower (String c f) ++ "%")%string
    with (Like.lower ("%" ++ String c f ++ "%")) by (now rewrite !lower_app).
  unfold select_like. unfold Like.pattern_too_long. rewrite utf8_length_lower.
  destruct (map_to_list (products db)) as [|r rows]; [reflexivity|].
  destruct (Like.max_pattern_length <? _); [reflexivity|].
  f_equal. f_equal. apply filter_ext. intros x. apply where_like_lower.
Qed.

Section Narrowing.
Import Like.

Lemma app_assoc_s (a b c : string) : ((a ++ b) ++ c)%string = (a ++ b ++ c)%string.
Proof.
  induction a as [|x a IH]; [reflexivity|]. now rewrite !app_cons, IH.
Qed.

Lemma like_nil (s : string) : like "" s = true -> s = "".
Proof. destruct s; [reflexivity|discriminate]. Qed.

(** A pattern made of two parts matches a text exactly when the text splits
    into a part for each. *)
Lemma like_app_elim (p q s : string) :
  like (p ++ q) s = true ->
  exists s1 s2 : string,
    s = (s1 ++ s2)%string /\ like p s1 = true /\ like q s2 = true.
Proof.
  revert s. induction p as [|c p IH]; intros s H.
  - exists "", s. now rewrite app_nil_l in H.
  - rewrite app_cons in H. destruct (Ascii.eqb c "%") eqn:Hc.
    + apply Ascii.eqb_eq in Hc as ->.
      apply like_percent_elim in H as (l & r & -> & Hr).
      apply IH in Hr as (r1 & r2 & -> & H1 & H2).
      exists (l ++ r1)%string, r2. split; [now rewrite app_assoc_s|].
      split; [now apply like_percent_intro|assumption].
    + rewrite (like_other_unfold _ _ _ Hc) in H.
      destruct s as [|d s]; [discriminate|].
      apply andb_true_iff in H as [Hd H].
      apply IH in H as (s1 & s2 & -> & H1 & H2).
      exists (String d s1), s2. split; [reflexivity|].
      split; [|assumption]. rewrite (like_other_unfold _ _ _ Hc).
      now rewrite Hd, H1.
Qed.

Lemma like_app_intro (p q s1 s2 : string) :
  like p s1 = true -> like q s2 = true -> like (p ++ q) (s1 ++ s2) = true.
Proof.
  revert s1. induction p as [|c p IH]; intros s1 H1 H2.
  - apply like_nil in H1 as ->. now rewrite !app_nil_l.
  - rewrite app_cons. destruct (Ascii.eqb c "%") eqn:Hc.
    + apply Ascii.eqb_eq in Hc as ->.
      apply like_percent_elim in H1 as (l & r & -> & Hr).
      rewrite app_assoc_s. apply like_percent_intro. now apply IH.
    + rewrite (like_other_unfold _ _ _ Hc) in H1.
      destruct s1 as [|d s1]; [discriminate|].
      apply andb_true_iff in H1 as [Hd H1].
      rewrite app_cons, (like_other_unfold _ _ _ Hc), Hd. now apply IH.
Qed.

Lemma like_inner (g1 f g2 s : string) :
  like ("%" ++ (g1 ++ f ++ g2) ++ "%") s = true ->
  like ("%" ++ f ++ "%") s = true.
Proof.
  intros H.
  apply like_app_elim in H as (a & b & -> & Ha & Hb).
  rewrite !app_assoc_s in Hb.
  apply like_app_elim in Hb as (b1 & b2 & -> & Hb1 & Hb2).
  apply like_app_elim in Hb2 as (c1 & c2 & -> & Hc1 & Hc2).
  rewrite <- (app_assoc_s a b1 (c1 ++ c2)).
  apply (like_app_intro "%" (f ++ "%") (a ++ b1) (c1 ++ c2));
    [apply like_percent_all|].
  apply like_app_intro; [assumption|apply like_percent_all].
Qed.

Lemma utf8_length_app (a b : string) :
  utf8_length (a ++ b) = utf8_length a + utf8_length b.
Proof.
  induction a as [|c a IH]; [reflexivity|].
  rewrite app_cons. cbn [utf8_length]. rewrite IH. lia.
Qed.

Lemma utf8_length_nonneg (a : string) : 0 <= utf8_length a.
Proof.
  induction a as [|c a IH]; cbn [utf8_length]; [lia|].
  destruct (N_of_ascii c <? 128)%N; lia.
Qed.

Lemma pattern_too_long_inner (g1 f g2 : string) :
  pattern_too_long ("%" ++ f ++ "%") = true ->
  pattern_too_long ("%" ++ (g1 ++ f ++ g2) ++ "%") = true.
Proof.
  unfold pattern_too_long. rewrite !Z.ltb_lt, !utf8_length_app.
  pose proof (utf8_length_nonneg g1). pose proof (utf8_length_nonneg g2). lia.
Qed.

End Narrowing.

Lemma where_like_inner (g1 f g2 : string) (r : row) :
  Like.no_nul (g1 ++ f ++ g2) = true ->
  where_like ("%" ++ (g1 ++ f ++ g2) ++ "%") r = true ->
  where_like ("%" ++ f ++ "%") r = true.
Proof.
  intros Hn. assert (Hf : Like.no_nul f = true).
  { rewrite !no_nul_app in Hn. apply andb_true_iff in Hn as [_ Hn].
    now apply andb_true_iff in Hn as [Hn _]. }
  unfold where_like, Like.like_text.
  rewrite (c_string_pattern _ Hn), (c_string_pattern _ Hf), !orb_true_iff.
  intros [H|H].
  - left. now apply (like_inner g1 f g2).
  - right. destruct (category r.2); [|discriminate]. now apply (like_inner g1 f g2).
Qed.

Lemma select_like_refused (pat : string) (db : database) :
  Like.pattern_too_long pat = true -> products db <> ∅ ->
  select_like pat db = Raised OperationalError.
Proof.
  intros Hl Hne. unfold select_like.
  destruct (map_to_list (products db)) as [|r rows] eqn:E.
  - exfalso. apply Hne. now apply map_to_list_empty_iff.
  - now rewrite Hl.
Qed.

(** X9: typing more characters into the search never adds rows.  For a
    filter text without NUL, whatever stands before and after a part [f] of
    it: when the search for the whole text returns, the search for [f]
    returns too, and with every product the whole text found. *)
Theorem fetch_products_narrows (db : database) (g1 f g2 : string) :
  Like.no_nul (g1 ++ f ++ g2) = true ->
  match fetch_products (g1 ++ f ++ g2) db with
  | Returned longer =>
      exists shorter : list row,
        fetch_products f db = Returned shorter
        /\ forall r : row, r ∈ longer -> r ∈ shorter
  | Raised _ => products db <> ∅
  end.
Proof.
  intros Hn.
  destruct (g1 ++ f ++ g2)%string as [|c t] eqn:Et.
  - assert (f = "") as ->.
    { destruct g1; [|rewrite app_cons in Et; discriminate].
      rewrite app_nil_l in Et. destruct f; [reflexivity|].
      rewrite app_cons in Et. discriminate. }
    rewrite fetch_products_no_filter. now exists (select_all db).
  - rewrite fetch_products_filter, <- Et. rewrite <- Et in Hn.
    destruct (select_like_cases ("%" ++ (g1 ++ f ++ g2) ++ "%") db)
      as [Hlong|(-> & _ & Hne)]; [|assumption].
    rewrite Hlong. destruct f as [|d f].
    + exists (select_all db). split; [reflexivity|]. intros r Hr.
      apply matching_elem in Hr as [Hr _]. now apply select_all_elem.
    + exists (matching ("%" ++ String d f ++ "%") db). split.
      * rewrite fetch_products_filter.
        destruct (select_like_cases ("%" ++ String d f ++ "%") db)
          as [Hs|(_ & Hl & Hne)]; [assumption|].
        rewrite (select_like_refused _ db (pattern_too_long_inner g1 _ g2 Hl) Hne)
          in Hlong.
        discriminate.
      * intros r Hr. apply matching_elem in Hr as [Hr Hw].
        apply matching_elem. split; [assumption|].
        now apply (where_like_inner g1 (String d f) g2).
Qed.

Lemma fetch_products_narrows_witness :
  Like.no_nul ("" ++ "wid" ++ "get") = true
  /\ exists longer shorter : list row,
       fetch_products ("" ++ "wid" ++ "get") one_widget = Returned longer
       /\ fetch_products "wid" one_widget = Returned shorter
       /\ forall r : row, r ∈ longer -> r ∈ shorter.
Proof.
  split; [reflexivity|].
  pose proof (fetch_products_narrows one_widget "" "wid" "get" eq_refl) as H.
  change (fetch_products ("" ++ "wid" ++ "get") one_widget)
    with (fetch_products "widget" one_widget) in *.
  destruct (fetch_products "widget" one_widget) as [longer|e] eqn:E.
  - destruct H as (shorter & Hs & Hsub). now exists longer, shorter.
  - exfalso. revert E. vm_compute. discriminate.
Defined.

(** ** The login dialog *)
Section Login.
Import App.

Lemma lstrip_no_lead (s : string) : no_lead (lstrip s).
Proof.
  induction s as [|c s IH]; cbn [lstrip]; [exact I|].
  destruct (isspace c) eqn:E; [exact IH|exact E].
Qed.

Lemma lstrip_id (s : string) : no_lead s -> lstrip s = s.
Proof. destruct s as [|c s]; cbn; [reflexivity|]. now intros ->. Qed.

Lemma rstrip_cons (c : ascii) (s : string) :
  isspace c = false ->
  exists r, rstrip (String c s) = String c r.
Proof.
  intros E. cbn [rstrip]. destruct (rstrip s) as [|d r].
  - rewrite E. now exists EmptyString.
  - now exists (String d r).
Qed.

Lemma rstrip_no_lead (s : string) : no_lead s -> no_lead (rstrip s).
Proof.
  destruct s as [|c s]; [intros _; exact I|]. cbn [no_lead]. intros E.
  destruct (rstrip_cons c s E) as [r ->]. exact E.
Qed.

Lemma rstrip_idem (s : string) : rstrip (rstrip s) = rstrip s.
Proof.
  induction s as [|c s IH]; [reflexivity|]. cbn [rstrip].
  destruct (rstrip s) as [|d r] eqn:E.
  - destruct (isspace c) eqn:Ec; [reflexivity|]. cbn [rstrip]. now rewrite Ec.
  - change (rstrip (String c (String d r))) with
      (match rstrip (String d r) with
       | EmptyString => if isspace c then EmptyString else String c EmptyString
       | String d' r' => String c (String d' r')
       end).
    now rewrite IH.
Qed.

Lemma strip_no_lead (s : string) : no_lead (strip s).
Proof. apply rstrip_no_lead, lstrip_no_lead. Qed.

Lemma strip_idem (s : string) : strip (strip s) = strip s.
Proof.
  unfold strip at 1. rewrite (lstrip_id (strip s) (strip_no_lead s)).
  apply rstrip_idem.
Qed.

Lemma strip_empty (s : string) : is_empty (strip s) = blank s.
Proof.
  induction s as [|c s IH]; [reflexivity|].
  unfold strip. cbn [lstrip blank]. destruct (isspace c) eqn:E; [exact IH|].
  destruct (rstrip_cons c s E) as [r ->]. reflexivity.
Qed.

Lemma first_run_login (u p : string) :
  check_credentials u p (init_db empty_db)
  = String.eqb default_username u
    && String.eqb (sha256_hexdigest default_password) (sha256_hexdigest p).
Proof.
  unfold check_credentials.
  replace (map_to_list (users (init_db empty_db)))
    with [(1, User default_username (sha256_hexdigest default_password))].
  - cbn [existsb snd username password_hash]. now rewrite orb_false_r.
  - symmetry. unfold init_db, empty_db. cbn [users products products_seq].
    rewrite lookup_empty, map_to_list_empty. cbn [existsb orb].
    rewrite bool_decide_eq_false_2 by (intros [x Hx]; discriminate).
    cbn [users]. apply map_to_list_singleton.
Qed.

(** X10 ([LoginDialog.handle_login]): the dialog asks again for the two
    texts exactly when one of them holds white space only; a user it accepts
    is the stripped user text, and [check_credentials] holds of the two
    stripped texts; on the file of first run white space around admin and
    admin123 does not matter, and no other user than admin is accepted. *)
Theorem handle_login_strips :
  (forall (u p : string) (db : database),
     handle_login u p db = LoginValidation <-> blank u = true \/ blank p = true)
  /\ (forall (u p user : string) (db : database),
        handle_login u p db = LoginAccepted user ->
        user = strip u /\ user <> EmptyString
        /\ check_credentials (strip u) (strip p) db = true)
  /\ (forall u p : string,
        strip u = default_username -> strip p = default_password ->
        handle_login u p (init_db empty_db) = LoginAccepted default_username)
  /\ (forall u p user : string,
        handle_login u p (init_db empty_db) = LoginAccepted user ->
        user = default_username)
  /\ handle_login " admin" "admin123 " (init_db empty_db)
     = LoginAccepted "admin"
  /\ handle_login "admin" "admin 123" (init_db empty_db) = LoginFailed.
Proof.
  split; [|split; [|split; [|split; [|split]]]].
  - intros u p db. unfold handle_login. rewrite !strip_empty.
    destruct (blank u), (blank p); cbn [orb];
      try (split; [auto|reflexivity]).
    destruct (check_credentials (strip u) (strip p) db);
      (split; [discriminate|intros [H|H]; discriminate]).
  - intros u p user db. unfold handle_login.
    destruct (is_empty (strip u)) eqn:Eu; cbn [orb]; [discriminate|].
    destruct (is_empty (strip p)); [discriminate|].
    destruct (check_credentials (strip u) (strip p) db) eqn:Ec; [|discriminate].
    intros [= <-]. split; [reflexivity|]. split; [|reflexivity].
    intros H. rewrite H in Eu. discriminate.
  - intros u p Hu Hp. unfold handle_login. rewrite Hu, Hp, first_run_login.
    rewrite !String.eqb_refl. reflexivity.
  - intros u p user. unfold handle_login.
    destruct (is_empty (strip u) || is_empty (strip p)); [discriminate|].
    rewrite first_run_login.
    destruct (String.eqb_spec default_username (strip u)) as [<-|_];
      cbn [andb]; [|discriminate].
    destruct (String.eqb _ _); [|discriminate]. now intros [= <-].
  - vm_compute. reflexivity.
  - vm_compute. reflexivity.
Qed.

End Login.

(** ** The main window *)
Section Window.
Import App.

Lemma fetch_products_cases (s : string) (db : database) :
  (exists rows, fetch_products s db = Returned rows
                /\ forall r, r ∈ rows -> products db !! r.1 = Some r.2)
  \/ (fetch_products s db = Raised OperationalError
      /\ Like.pattern_too_long ("%" ++ s ++ "%") = true
      /\ products db <> ∅).
Proof.
  destruct s as [|c f].
  - left. exists (select_all db). split; [reflexivity|].
    intros r. apply select_all_elem.
  - rewrite fetch_products_filter.
    destruct (select_like_cases ("%" ++ String c f ++ "%") db) as [H|H].
    + left. exists (matching ("%" ++ String c f ++ "%") db). split; [exact H|].
      intros r Hr. now apply matching_elem in Hr.
    + right. exact H.
Qed.

Lemma load_table_cases (w : window) :
  (exists rows,
     fetch_products (strip (search_input w)) (file w) = Returned rows
     /\ load_table w
        = Continues (Window (file w) None (search_input w) rows
                       (dashboard_of (select_all (file w)))))
  \/ (fetch_products (strip (search_input w)) (file w) = Raised OperationalError
      /\ load_table w = Crashes OperationalError (file w)).
Proof.
  unfold load_table.
  destruct (fetch_products_cases (strip (search_input w)) (file w))
    as [(rows & -> & _)|(-> & _)].
  - left. exists rows. split; reflexivity.
  - right. split; reflexivity.
Qed.

Lemma load_table_sync (w : window) : in_sync_or_raised (load_table w).
Proof.
  destruct (load_table_cases w) as [(rows & Hf & ->)|(_ & ->)]; [|reflexivity].
  cbn [in_sync_or_raised]. unfold in_sync.
  cbn [file search_input table dashboard_shown selected_product_id].
  split; [exact Hf|]. split; [reflexivity|]. discriminate.
Qed.

Lemma load_table_file (w : window) : file_of (load_table w) = file w.
Proof.
  destruct (load_table_cases w) as [(rows & _ & ->)|(_ & ->)]; reflexivity.
Qed.

Lemma shown_sync (m : message) (s : step window) :
  in_sync_or_raised s -> in_sync_or_raised (window_of (shown m s)).
Proof. now destruct s. Qed.

Lemma shown_file (m : message) (s : step window) :
  file_of (window_of (shown m s)) = file_of s.
Proof. now destruct s. Qed.

Lemma try_commit_kept (db : database) (o : outcome database) :
  fst (try_commit db o) = false -> snd (try_commit db o) = db.
Proof. destruct o; [discriminate|reflexivity]. Qed.

Lemma with_file_same (w : window) : with_file (file w) w = w.
Proof. now destruct w. Qed.

Lemma open_window_shows (db : database) :
  open_window db
  = Continues (Window db None EmptyString (select_all db)
                 (dashboard_of (select_all db))).
Proof. reflexivity. Qed.

Lemma open_window_sync (db : database) : in_sync_or_raised (open_window db).
Proof.
  rewrite open_window_shows. cbn [in_sync_or_raised]. unfold in_sync.
  cbn [file search_input table dashboard_shown selected_product_id].
  split; [reflexivity|]. split; [reflexivity|]. discriminate.
Qed.

Lemma handle_sync (w : window) (e : event) :
  in_sync w -> in_sync_or_raised (handle w e).
Proof.
  intros Hw. pose proof Hw as (Hrows & Hdash & Hsel).
  destruct e as [t|row|f now|f|reply|]; cbn [handle].
  - apply load_table_sync.
  - unfold table_row_clicked. destruct (table w !! row) as [r|] eqn:Er; [|exact Hw].
    cbn [in_sync_or_raised]. unfold in_sync.
    cbn [file search_input table dashboard_shown selected_product_id].
    split; [exact Hrows|]. split; [exact Hdash|].
    intros id [= <-]. exists r.2. apply list_elem_of_lookup_2 in Er.
    now destruct r.
  - unfold handle_add.
    destruct (is_empty (strip (name_input f))); [exact Hw|].
    destruct (fst (insert_product _ _ _ _ _ _)) eqn:Eok.
    + apply shown_sync, load_table_sync.
    + unfold insert_product in *. rewrite (try_commit_kept _ _ Eok).
      cbn [window_of fst]. now rewrite with_file_same.
  - unfold handle_update. destruct (no_selection w); [exact Hw|].
    destruct (is_empty (strip (name_input f))); [exact Hw|].
    destruct (fst (update_product _ _ _ _ _ _)) eqn:Eok.
    + apply shown_sync, load_table_sync.
    + unfold update_product in *. rewrite (try_commit_kept _ _ Eok).
      cbn [window_of fst]. now rewrite with_file_same.
  - unfold handle_delete. destruct (no_selection w); [exact Hw|].
    destruct reply; [|exact Hw].
    destruct (fst (delete_product _ _)) eqn:Eok.
    + apply shown_sync, load_table_sync.
    + unfold delete_product in *. rewrite (try_commit_kept _ _ Eok).
      cbn [window_of fst]. now rewrite with_file_same.
  - cbn [in_sync_or_raised]. unfold in_sync, clear_form.
    cbn [file search_input table dashboard_shown selected_product_id].
    split; [exact Hrows|]. split; [exact Hdash|]. discriminate.
Qed.

Lemma handle_all_sync (es : list event) (s : step window) :
  in_sync_or_raised s -> in_sync_or_raised (handle_all es s).
Proof.
  revert s. induction es as [|e es IH]; intros s Hs; [exact Hs|].
  cbn [handle_all]. destruct s as [w|x db]; [|exact Hs].
  apply IH, handle_sync, Hs.
Qed.


(** X12 ([InventoryApp.export_csv], [export_excel]): at every point of a
    session the frame that is exported has the six column titles and
    exactly the rows the table shows, in the same order; on an empty table
    the export warns that there is no data; and [fetch_products] does not
    raise there. *)
Theorem export_frame_is_table (db : database) (es : list event) :
  match session db es with
  | Continues w =>
      export_frame w
      = Continues
          (match table w with
           | [] => ExportNoData
           | _ :: _ =>
               ExportFrame
                 ["ID"; "Name"; "Category"; "Quantity"; "Price"; "Added On"]
                 (table w)
           end)
  | Crashes _ _ => True
  end.
Proof.
  pose proof (handle_all_sync es (open_window db) (open_window_sync db)) as H.
  fold (session db es) in H. destruct (session db es) as [w|x db']; [|exact I].
  destruct H as (Hrows & _). unfold export_frame. rewrite Hrows.
  now destruct (table w).
Qed.

End Window.

(** ** Search texts the engine accepts *)
Section Searches.
Import App.










End Searches.

(** ** What the window writes to the file *)
Section Writes.
Import App.

Lemma bind_real_range (p : float) :
  PrimFloat.leb 0%float p = true ->
  PrimFloat.leb p 10000000%float = true ->
  exists x : float,
    bind_real p = Some x
    /\ PrimFloat.leb 0%float x = true
    /\ PrimFloat.leb x 10000000%float = true.
Proof.
  intros H0 H1. unfold bind_real. rewrite (nonneg_not_nan p H0).
  destruct (PrimFloat.eqb p 0%float).
  - exists 0%float. repeat split; reflexivity.
  - exists p. repeat split; assumption.
Qed.

Lemma product_of_form_tidy (f : form) (added : option string) :
  in_range f -> is_empty (strip (name_input f)) = false ->
  tidy_product (product_of_form f added).
Proof.
  intros (Hq & Hp0 & Hp1) Hn. unfold tidy_product, product_of_form.
  cbn [name category quantity price].
  split; [intros H; rewrite H in Hn; discriminate|].
  split; [apply strip_idem|].
  split; [exists (strip (category_input f)); split; [reflexivity|apply strip_idem]|].
  split; [exists (quantity_input f); split; [reflexivity|exact Hq]|].
  apply bind_real_range; assumption.
Qed.

Lemma alter_stored {A : Type} (g : A -> A) (m : gmap Z A) (i : Z) (x : A) :
  m !! i = Some x -> alter g i m = <[i := g x]> m.
Proof.
  intros Hx. apply map_eq. intros k.
  destruct (decide (i = k)) as [<-|Hne].
  - now rewrite lookup_alter_eq, lookup_insert_eq, Hx.
  - now rewrite lookup_alter_ne, lookup_insert_ne.
Qed.

Lemma alter_absent {A : Type} (g : A -> A) (m : gmap Z A) (i : Z) :
  m !! i = None -> alter g i m = m.
Proof.
  intros Hx. apply map_eq. intros k.
  destruct (decide (i = k)) as [<-|Hne].
  - now rewrite lookup_alter_eq, Hx.
  - now rewrite lookup_alter_ne.
Qed.

Lemma insert_tidy (db : database) (f : form) (now : string) :
  tidy db -> in_range f -> is_empty (strip (name_input f)) = false ->
  tidy (snd (insert_product (strip (name_input f)) (strip (category_input f))
               (quantity_input f) (price_input f) now db)).
Proof.
  intros Hdb Hf Hn.
  destruct (insert_product_file db (strip (name_input f))
              (strip (category_input f)) (quantity_input f) (price_input f) now)
    as [-> | ->]; [exact Hdb|].
  intros k v. cbn [products]. rewrite lookup_insert_Some.
  intros [[_ <-]|[_ Hv]]; [|exact (Hdb k v Hv)].
  exact (product_of_form_tidy f (Some now) Hf Hn).
Qed.

Lemma update_tidy (db : database) (id : Z) (f : form) :
  tidy db -> in_range f -> is_empty (strip (name_input f)) = false ->
  tidy (snd (update_product id (strip (name_input f)) (strip (category_input f))
               (quantity_input f) (price_input f) db)).
Proof.
  intros Hdb Hf Hn.
  destruct (update_product_file db id (strip (name_input f))
              (strip (category_input f)) (quantity_input f) (price_input f))
    as [-> | ->]; [exact Hdb|].
  intros k v. cbn [products].
  destruct (products db !! id) as [old|] eqn:Eold.
  - rewrite (alter_stored _ _ _ _ Eold), lookup_insert_Some.
    intros [[_ <-]|[_ Hv]]; [|exact (Hdb k v Hv)].
    exact (product_of_form_tidy f (added_on old) Hf Hn).
  - rewrite (alter_absent _ _ _ Eold). apply Hdb.
Qed.

Lemma delete_tidy (db : database) (id : Z) :
  tidy db -> tidy (snd (delete_product id db)).
Proof.
  intros Hdb. destruct (delete_product_file db id) as [-> | ->]; [exact Hdb|].
  intros k v. cbn [products]. rewrite lookup_delete_Some. intros [_ Hv].
  exact (Hdb k v Hv).
Qed.

Lemma handle_tidy (w : window) (e : event) :
  tidy (file w) -> event_in_range e -> tidy (file_of (handle w e)).
Proof.
  intros Hw He. destruct e as [t|row|f now|f|reply|]; cbn [handle].
  - unfold search_edited. now rewrite load_table_file.
  - cbn [file_of]. unfold table_row_clicked. now destruct (table w !! row).
  - unfold handle_add.
    destruct (is_empty (strip (name_input f))) eqn:En; [exact Hw|].
    destruct (fst (insert_product _ _ _ _ _ _)).
    + rewrite shown_file, load_table_file. now apply insert_tidy.
    + cbn [window_of file_of fst with_file file]. now apply insert_tidy.
  - unfold handle_update. destruct (no_selection w); [exact Hw|].
    destruct (is_empty (strip (name_input f))) eqn:En; [exact Hw|].
    destruct (fst (update_product _ _ _ _ _ _)).
    + rewrite shown_file, load_table_file. now apply update_tidy.
    + cbn [window_of file_of fst with_file file]. now apply update_tidy.
  - unfold handle_delete. destruct (no_selection w); [exact Hw|].
    destruct reply; [|exact Hw].
    destruct (fst (delete_product _ _)).
    + rewrite shown_file, load_table_file. now apply delete_tidy.
    + cbn [window_of file_of fst with_file file]. now apply delete_tidy.
  - exact Hw.
Qed.

Lemma handle_all_tidy (es : list event) (s : step window) :
  tidy (file_of s) -> Forall event_in_range es ->
  tidy (file_of (handle_all es s)).
Proof.
  revert s. induction es as [|e es IH]; intros s Hs Hes; [exact Hs|].
  apply Forall_cons in Hes as [He Hes]. cbn [handle_all].
  destruct s as [w|x db]; [|exact Hs].
  apply IH; [|exact Hes]. now apply handle_tidy.
Qed.

(** X14 ([handle_add], [handle_update] with [strip] and the spin boxes):
    the window keeps a file tidy.  If every product of the file has a name
    that is not empty, name and category without white space around them, a
    quantity from 0 to 1000000 and a price from 0 to 10000000, and the spin
    boxes hold values of their range at every press of a button, then the
    same holds of the file the session leaves, also when it ends on an
    exception. *)
Theorem session_tidy (db : database) (es : list event) :
  tidy db -> Forall event_in_range es -> tidy (file_of (session db es)).
Proof.
  intros Hdb Hes. unfold session. apply handle_all_tidy; [|exact Hes].
  now rewrite open_window_shows.
Qed.

Lemma session_tidy_witness :
  tidy (init_db empty_db)
  /\ Forall event_in_range
       [AddPressed (Form "  Widget " " Tools" 3 2.5%float) "2024-01-01 10:00:00";
        RowClicked 0;
        UpdatePressed (Form "Gadget" "" 1000000 (-0)%float)]
  /\ tidy (file_of (session (init_db empty_db)
             [AddPressed (Form "  Widget " " Tools" 3 2.5%float) "2024-01-01 10:00:00";
              RowClicked 0;
              UpdatePressed (Form "Gadget" "" 1000000 (-0)%float)])).
Proof.
  assert (H1 : tidy (init_db empty_db)).
  { intros id p. rewrite (proj1 (init_db_products empty_db)).
    cbn [products empty_db]. now rewrite lookup_empty. }
  assert (H2 : Forall event_in_range
       [AddPressed (Form "  Widget " " Tools" 3 2.5%float) "2024-01-01 10:00:00";
        RowClicked 0;
        UpdatePressed (Form "Gadget" "" 1000000 (-0)%float)]).
  { repeat constructor; cbn [quantity_input price_input]; try lia;
      vm_compute; reflexivity. }
  split; [exact H1|]. split; [exact H2|]. exact (session_tidy _ _ H1 H2).
Defined.

End Writes.

(** ** What the buttons do to the rows shown *)
Section Buttons.
Import App.

Lemma in_range_fits (f : form) : in_range f -> fits_int64 (quantity_input f) = true.
Proof.
  intros (Hq & _). unfold fits_int64, max_int64.
  apply andb_true_iff. rewrite !Z.leb_le. lia.
Qed.

Lemma is_empty_true (s : string) : is_empty s = true -> s = EmptyString.
Proof. now destruct s. Qed.

Lemma table_stored (w : window) (r : row) :
  in_sync w -> r ∈ table w -> products (file w) !! r.1 = Some r.2.
Proof.
  intros (Hrows & _) Hr.
  destruct (fetch_products_cases (strip (search_input w)) (file w))
    as [(rows & Hf & Hstored)|(Hf & _)]; [|congruence].
  rewrite Hf in Hrows. injection Hrows as ->. now apply Hstored.
Qed.

Lemma selected_stored (w : window) :
  in_sync w -> no_selection w = false ->
  exists (id : Z) (old : product),
    selected_product_id w = Some id /\ id <> 0
    /\ (id, old) ∈ table w /\ products (file w) !! id = Some old.
Proof.
  intros Hw Hsel. pose proof Hw as (_ & _ & Hin). unfold no_selection in Hsel.
  destruct (selected_product_id w) as [id|]; [|discriminate].
  destruct (Hin id eq_refl) as [old Hold]. exists id, old.
  split; [reflexivity|]. split; [now apply Z.eqb_neq|]. split; [exact Hold|].
  exact (table_stored w (id, old) Hw Hold).
Qed.

Lemma shown_continues (m : message) (s : step window) (w' : window)
    (msgs : list message) :
  shown m s = Continues (w', msgs) -> file_of s = file w' /\ msgs = [m].
Proof. destruct s; [|discriminate]. now intros [= <- <-]. Qed.

Lemma not_shown (m m' : message) : m <> m' -> m ∈ [m'] -> False.
Proof. intros Hne Hin. apply list_elem_of_singleton in Hin. contradiction. Qed.

(** X15 ([handle_update], [handle_delete]): in a window that is in step
    with its file, when "Product updated." is shown the selected row was in
    the table and in the file, and the file now holds under its id the
    product of the form with the creation time the row had, all other rows
    and the counter being as they were; when "Product deleted." is shown the
    selected row was in the table and in the file and is the one row the
    file has lost.  The update or delete of an id that is not stored, which
    the store functions report as success, is never shown by the window. *)
Theorem window_write_hits_row (w : window) :
  in_sync w ->
  (forall (f : form) (w' : window) (msgs : list message),
     handle_update f w = Continues (w', msgs) ->
     Message Information "Updated" "Product updated." ∈ msgs ->
     exists (id : Z) (old : product),
       selected_product_id w = Some id
       /\ (id, old) ∈ table w
       /\ products (file w) !! id = Some old
       /\ products (file w')
          = <[id := product_of_form f (added_on old)]> (products (file w))
       /\ products_seq (file w') = products_seq (file w))
  /\ (forall (reply : bool) (w' : window) (msgs : list message),
        handle_delete reply w = Continues (w', msgs) ->
        Message Information "Deleted" "Product deleted." ∈ msgs ->
        exists (id : Z) (old : product),
          reply = true
          /\ selected_product_id w = Some id
          /\ (id, old) ∈ table w
          /\ products (file w) !! id = Some old
          /\ products (file w') = delete id (products (file w))
          /\ products_seq (file w') = products_seq (file w)).
Proof.
  intros Hw. split.
  - intros f w' msgs. unfold handle_update.
    destruct (no_selection w) eqn:Esel.
    { intros [= <- <-] Hin. now apply not_shown in Hin. }
    destruct (is_empty (strip (name_input f))).
    { intros [= <- <-] Hin. now apply not_shown in Hin. }
    destruct (selected_stored w Hw Esel) as (id & old & Hid & _ & Hrow & Hold).
    rewrite Hid. cbn [default].
    destruct (fits_int64 (quantity_input f) && fits_int64 id) eqn:Efit.
    + rewrite (update_product_done _ _ _ _ _ _ Efit). cbn [fst snd].
      intros Hs _. apply shown_continues in Hs as [Hfile _].
      rewrite load_table_file in Hfile. cbn [clear_form with_file file] in Hfile.
      exists id, old. rewrite <- Hfile. cbn [products products_seq].
      repeat (split; [assumption || reflexivity|]).
      split; [|reflexivity]. exact (alter_stored _ _ _ _ Hold).
    + rewrite (update_product_refused _ _ _ _ _ _ Efit). cbn [fst snd].
      intros [= <- <-] Hin. now apply not_shown in Hin.
  - intros reply w' msgs. unfold handle_delete.
    destruct (no_selection w) eqn:Esel.
    { intros [= <- <-] Hin. now apply not_shown in Hin. }
    destruct reply.
    2:{ intros [= <- <-] Hin. now apply elem_of_nil in Hin. }
    destruct (selected_stored w Hw Esel) as (id & old & Hid & _ & Hrow & Hold).
    rewrite Hid. cbn [default].
    destruct (fits_int64 id) eqn:Efit.
    + rewrite (delete_product_done _ _ Efit). cbn [fst snd].
      intros Hs _. apply shown_continues in Hs as [Hfile _].
      rewrite load_table_file in Hfile. cbn [clear_form with_file file] in Hfile.
      exists id, old. rewrite <- Hfile. cbn [products products_seq].
      repeat (split; [assumption || reflexivity|]). reflexivity.
    + rewrite (delete_product_refused _ _ Efit). cbn [fst snd].
      intros [= <- <-] Hin. now apply not_shown in Hin.
Qed.

Lemma window_write_hits_row_witness :
  in_sync
    (Window
       (Database
          {[1 := Product "Widget" (Some "Tools"%string) (Some 3) (Some 2.5%float)
                   (Some "2024-01-01 10:00:00"%string)]} 1 ∅)
       (Some 1) "wid"
       [(1, Product "Widget" (Some "Tools"%string) (Some 3) (Some 2.5%float)
              (Some "2024-01-01 10:00:00"%string))]
       (Dashboard 1 3 7.5%float [("Tools"%string, 1%nat)]))
  /\ handle_update (Form " Gadget " "" 1 0%float)
       (Window
          (Database
             {[1 := Product "Widget" (Some "Tools"%string) (Some 3) (Some 2.5%float)
                      (Some "2024-01-01 10:00:00"%string)]} 1 ∅)
          (Some 1) "wid"
          [(1, Product "Widget" (Some "Tools"%string) (Some 3) (Some 2.5%float)
                 (Some "2024-01-01 10:00:00"%string))]
          (Dashboard 1 3 7.5%float [("Tools"%string, 1%nat)]))
     = Continues
         (Window
            (Database
               {[1 := Product "Gadget" (Some ""%string) (Some 1) (Some 0%float)
                        (Some "2024-01-01 10:00:00"%string)]} 1 ∅)
            None "wid" []
            (Dashboard 1 1 0%float [("Uncategorized"%string, 1%nat)]),
          [Message Information "Updated" "Product updated."])
  /\ exists (id : Z) (old : product),
       id = 1
       /\ added_on old = Some "2024-01-01 10:00:00"%string
       /\ products
            (Database
               {[1 := Product "Gadget" (Some ""%string) (Some 1) (Some 0%float)
                        (Some "2024-01-01 10:00:00"%string)]} 1 ∅)
          = <[id := product_of_form (Form " Gadget " "" 1 0%float) (added_on old)]>
              {[1 := Product "Widget" (Some "Tools"%string) (Some 3) (Some 2.5%float)
                       (Some "2024-01-01 10:00:00"%string)]}.
Proof.
  assert (H1 : in_sync
    (Window
       (Database
          {[1 := Product "Widget" (Some "Tools"%string) (Some 3) (Some 2.5%float)
                   (Some "2024-01-01 10:00:00"%string)]} 1 ∅)
       (Some 1) "wid"
       [(1, Product "Widget" (Some "Tools"%string) (Some 3) (Some 2.5%float)
              (Some "2024-01-01 10:00:00"%string))]
       (Dashboard 1 3 7.5%float [("Tools"%string, 1%nat)]))).
  { split; [vm_compute; reflexivity|]. split; [vm_compute; reflexivity|].
    intros id [= <-]. eexists. apply list_elem_of_here. }
  assert (H2 : handle_update (Form " Gadget " "" 1 0%float)
       (Window
          (Database
             {[1 := Product "Widget" (Some "Tools"%string) (Some 3) (Some 2.5%float)
                      (Some "2024-01-01 10:00:00"%string)]} 1 ∅)
          (Some 1) "wid"
          [(1, Product "Widget" (Some "Tools"%string) (Some 3) (Some 2.5%float)
                 (Some "2024-01-01 10:00:00"%string))]
          (Dashboard 1 3 7.5%float [("Tools"%string, 1%nat)]))
     = Continues
         (Window
            (Database
               {[1 := Product "Gadget" (Some ""%string) (Some 1) (Some 0%float)
                        (Some "2024-01-01 10:00:00"%string)]} 1 ∅)
            None "wid" []
            (Dashboard 1 1 0%float [("Uncategorized"%string, 1%nat)]),
          [Message Information "Updated" "Product updated."])).
  { vm_compute. reflexivity. }
  split; [exact H1|]. split; [exact H2|].
  destruct (proj1 (window_write_hits_row _ H1) _ _ _ H2 (list_elem_of_here _ _))
    as (id & old & Hid & Hrow & _ & Hfile & _).
  exists id, old. injection Hid as <-.
  apply list_elem_of_singleton in Hrow. injection Hrow as ->.
  split; [reflexivity|]. split; [reflexivity|]. exact Hfile.
Defined.

Lemma select_all_insert_top (db : database) (id : Z) (p : product) (seq : Z) :
  (forall k v, products db !! k = Some v -> k < id) ->
  select_all (Database (<[id := p]> (products db)) seq (users db))
  = (id, p) :: select_all db.
Proof.
  intros Habove.
  assert (Hall : Forall (fun r : row => r.1 < id) (select_all db)).
  { apply Forall_forall. intros r Hr. apply select_all_elem in Hr.
    exact (Habove _ _ Hr). }
  apply rows_sorted_unique.
  - apply select_all_sorted.
  - constructor; [apply select_all_sorted|].
    eapply Forall_impl; [exact Hall|]. intros r Hr. unfold id_desc. cbn beta iota delta [fst] in *. lia.
  - apply select_all_NoDup_ids.
  - rewrite fmap_cons. apply NoDup_cons. split; [|apply select_all_NoDup_ids].
    intros Hin. apply list_elem_of_fmap in Hin as (r & Heq & Hr).
    rewrite Forall_forall in Hall. specialize (Hall r Hr). cbn beta iota delta [fst] in *. lia.
  - intros r. rewrite select_all_elem, elem_of_cons, select_all_elem.
    cbn [products]. rewrite lookup_insert_Some. destruct r as [k v]. cbn [fst snd].
    split.
    + intros [[<- <-]|[_ Hv]]; [now left|now right].
    + intros [[= -> ->]|Hv]; [now left|]. right. split; [|exact Hv].
      apply Habove in Hv. lia.
Qed.

(** X16 ([handle_add] with [load_table]): in a window that is in step with
    its file and whose search box is blank, pressing "Add Product" with a
    name that is not blank and spin-box values of their range, while the
    engine has an id left to give, shows "Product added.", stores the
    product of the form under the next id, and the table then shows that
    product as its first row above the rows it showed before; nothing is
    selected, and the dashboard counts one product more. *)
Theorem handle_add_first_row (w : window) (f : form) (now : string) :
  in_sync w ->
  blank (search_input w) = true ->
  blank (name_input f) = false ->
  in_range f ->
  next_rowid (file w) <= max_int64 ->
  exists w' : window,
    handle_add f now w
    = Continues (w', [Message Information "Added" "Product added."])
    /\ file w'
       = Database
           (<[next_rowid (file w) := product_of_form f (Some now)]>
              (products (file w)))
           (next_rowid (file w)) (users (file w))
    /\ table w'
       = (next_rowid (file w), product_of_form f (Some now)) :: table w
    /\ selected_product_id w' = None
    /\ search_input w' = search_input w
    /\ total_products (dashboard_shown w')
       = S (total_products (dashboard_shown w)).
Proof.
  intros (Hrows & Hdash & _) Hsearch Hname Hf Hid.
  rewrite <- strip_empty in Hsearch, Hname. apply is_empty_true in Hsearch.
  rewrite Hsearch, fetch_products_no_filter in Hrows. injection Hrows as Hrows.
  rewrite update_dashboard_returns in Hdash. injection Hdash as Hdash.
  unfold handle_add. rewrite Hname.
  assert (Hfit : fits_int64 (quantity_input f) && (next_rowid (file w) <=? max_int64)
                 = true).
  { rewrite (in_range_fits f Hf). now apply Z.leb_le. }
  rewrite (insert_product_done _ _ _ _ _ _ Hfit). cbn [fst snd].
  unfold load_table, clear_form, with_file.
  cbn [file search_input table dashboard_shown selected_product_id].
  rewrite Hsearch, fetch_products_no_filter, update_dashboard_returns.
  cbn [shown]. eexists. split; [reflexivity|].
  cbn [file search_input table dashboard_shown selected_product_id].
  rewrite (select_all_insert_top (file w) _ _ _ (next_rowid_above (file w))).
  split; [reflexivity|]. split; [now rewrite Hrows|].
  split; [reflexivity|]. split; [reflexivity|].
  rewrite <- Hdash. reflexivity.
Qed.

Lemma handle_add_first_row_witness :
  in_sync (Window (init_db empty_db) None " " [] (dashboard_of []))
  /\ blank " " = true
  /\ blank " Widget" = false
  /\ in_range (Form " Widget" "Tools " 3 2.5%float)
  /\ next_rowid (init_db empty_db) <= max_int64
  /\ exists w' : window,
       handle_add (Form " Widget" "Tools " 3 2.5%float) "2024-01-01 10:00:00"
         (Window (init_db empty_db) None " " [] (dashboard_of []))
       = Continues (w', [Message Information "Added" "Product added."])
       /\ file w'
          = Database
              (<[next_rowid (init_db empty_db)
                 := product_of_form (Form " Widget" "Tools " 3 2.5%float)
                      (Some "2024-01-01 10:00:00"%string)]>
                 (products (init_db empty_db)))
              (next_rowid (init_db empty_db)) (users (init_db empty_db))
       /\ table w'
          = [(next_rowid (init_db empty_db),
              product_of_form (Form " Widget" "Tools " 3 2.5%float)
                (Some "2024-01-01 10:00:00"%string))]
       /\ selected_product_id w' = None
       /\ search_input w' = " "%string
       /\ total_products (dashboard_shown w') = 1%nat.
Proof.
  assert (H1 : in_sync (Window (init_db empty_db) None " " [] (dashboard_of []))).
  { split; [vm_compute; reflexivity|]. split; [vm_compute; reflexivity|].
    discriminate. }
  assert (H2 : blank " " = true) by reflexivity.
  assert (H3 : blank " Widget" = false) by reflexivity.
  assert (H4 : in_range (Form " Widget" "Tools " 3 2.5%float)).
  { repeat split; cbn [quantity_input price_input]; try lia; vm_compute; reflexivity. }
  assert (H5 : next_rowid (init_db empty_db) <= max_int64).
  { vm_compute. discriminate. }
  repeat (split; [assumption|]).
  exact (handle_add_first_row _ (Form " Widget" "Tools " 3 2.5%float)
           "2024-01-01 10:00:00" H1 H2 H3 H4 H5).
Defined.

(** X17 ([handle_add] with [load_table]): when the search box holds a text
    whose pattern is longer than the engine accepts, pressing "Add Product"
    with a name that is not blank and spin-box values of their range, while
    the engine has an id left to give, stores the product of the form and
    then raises OperationalError out of the handler, from the listing of
    [load_table]: the product is in the file.  A text of 25000 characters
    of two bytes is such a text. *)
Theorem handle_add_raises_after_commit (w : window) (f : form) (now : string) :
  Like.pattern_too_long ("%" ++ strip (search_input w) ++ "%") = true ->
  blank (name_input f) = false ->
  in_range f ->
  next_rowid (file w) <= max_int64 ->
  handle_add f now w
  = Crashes OperationalError
      (Database
         (<[next_rowid (file w) := product_of_form f (Some now)]>
            (products (file w)))
         (next_rowid (file w)) (users (file w))).
Proof.
  intros Hlong Hname Hf Hid. rewrite <- strip_empty in Hname.
  unfold handle_add. rewrite Hname.
  assert (Hfit : fits_int64 (quantity_input f) && (next_rowid (file w) <=? max_int64)
                 = true).
  { rewrite (in_range_fits f Hf). now apply Z.leb_le. }
  rewrite (insert_product_done _ _ _ _ _ _ Hfit). cbn [fst snd].
  unfold load_table, clear_form, with_file.
  cbn [file search_input table dashboard_shown selected_product_id].
  destruct (strip (search_input w)) as [|c s] eqn:Es.
  { vm_compute in Hlong. discriminate. }
  rewrite fetch_products_filter, select_like_refused; [reflexivity|exact Hlong|].
  cbn [products]. apply insert_non_empty.
Qed.

Lemma load_table_empty (w : window) :
  products (file w) = ∅ ->
  load_table w
  = Continues (Window (file w) None (search_input w) [] (dashboard_of [])).
Proof.
  intros Hempty. unfold load_table.
  rewrite update_dashboard_returns, (select_all_empty _ Hempty).
  destruct (strip (search_input w)) as [|c s].
  - now rewrite fetch_products_no_filter, (select_all_empty _ Hempty).
  - rewrite fetch_products_filter. unfold select_like.
    now rewrite Hempty, map_to_list_empty.
Qed.

Lemma handle_add_raises_after_commit_witness :
  Like.pattern_too_long
    ("%" ++ strip (search_input
                     (Window (init_db empty_db) None long_text []
                        (dashboard_of []))) ++ "%") = true
  /\ blank "Widget" = false
  /\ in_range (Form "Widget" "Tools" 3 2.5%float)
  /\ next_rowid (init_db empty_db) <= max_int64
  /\ session (init_db empty_db) [SearchEdited long_text]
     = Continues (Window (init_db empty_db) None long_text [] (dashboard_of []))
  /\ handle_add (Form "Widget" "Tools" 3 2.5%float) "2024-01-01 10:00:00"
       (Window (init_db empty_db) None long_text [] (dashboard_of []))
     = Crashes OperationalError
         (Database
            (<[next_rowid (init_db empty_db)
               := product_of_form (Form "Widget" "Tools" 3 2.5%float)
                    (Some "2024-01-01 10:00:00"%string)]>
               (products (init_db empty_db)))
            (next_rowid (init_db empty_db)) (users (init_db empty_db))).
Proof.
  assert (H1 : Like.pattern_too_long
    ("%" ++ strip (search_input
                     (Window (init_db empty_db) None long_text []
                        (dashboard_of []))) ++ "%") = true).
  { vm_compute. reflexivity. }
  assert (H2 : blank "Widget" = false) by reflexivity.
  assert (H3 : in_range (Form "Widget" "Tools" 3 2.5%float)).
  { repeat split; cbn [quantity_input price_input]; try lia; vm_compute; reflexivity. }
  assert (H4 : next_rowid (init_db empty_db) <= max_int64).
  { vm_compute. discriminate. }
  repeat (split; [assumption|]).
  split.
  { unfold session. rewrite open_window_shows. cbn [handle_all handle].
    unfold search_edited. rewrite load_table_empty; [reflexivity|].
    cbn [file]. now rewrite (proj1 (init_db_products empty_db)). }
  exact (handle_add_raises_after_commit _ (Form "Widget" "Tools" 3 2.5%float)
           "2024-01-01 10:00:00" H1 H2 H3 H4).
Defined.

End Buttons.

(** ** The chart *)
Section Chart.
Import App.










End Chart.
